(** * Shallow embedding of the AI-Tutor memory subsystem and router

    Sources: [src/api/services/memory.py] (the four memory kinds and the
    [MemoryManager]) and [src/api/agents/supervisor.py] ([supervisor_node]).

    Modelling conventions.
    - The Supabase table [memories] is a list of rows in insertion order.
      PostgreSQL returns the rows of a select without [order] in no
      guaranteed order; the model returns them in insertion order, and a
      statement that depends on that order says so.
    - A store call may raise: [w_down k] makes every call issued by the
      memory of kind [k] fail with [StoreError]; [w_msgs_down] does the same
      for the [messages] table.
    - The [context] column holds serialised JSON: either the text of a JSON
      object ([Serialized]) or text that [json.loads] rejects ([Unparsable]).
    - Python floats are modelled by exact rationals [Q].
    - Timestamps ([datetime.utcnow()]) are whole seconds since the epoch
      as [Z]; the clock reads the same value [w_now] during one call.
    - Text is a string of 7-bit characters, on which Python's slicing by
      code points, [str.lower] and [str.isspace] are the byte-level
      functions defined here.
    - [hashlib.sha256(...).hexdigest()[:16]] and [datetime.isoformat] are
      library functions, kept abstract as section variables. *)

From Stdlib Require Import String Ascii List ZArith QArith Qminmax Bool Lia Lqa.
From Stdlib Require Import Permutation Sorting.Sorted.
Import ListNotations.

Open Scope string_scope.
Open Scope list_scope.

(** ** Python values stored as JSON *)

Inductive jval : Type :=
| JNull
| JBool (b : bool)
| JNum (q : Q)
| JStr (s : string).

(** A JSON object / Python dict, in key insertion order. *)
Definition jobj := list (string * jval).

Fixpoint dget {V : Type} (d : list (string * V)) (k : string) : option V :=
  match d with
  | [] => None
  | (k', v) :: d' => if String.eqb k k' then Some v else dget d' k
  end.

(** [del d[k]] *)
Fixpoint dict_del {V : Type} (d : list (string * V)) (k : string) : list (string * V) :=
  match d with
  | [] => []
  | (k', v) :: d' => if String.eqb k k' then d' else (k', v) :: dict_del d' k
  end.

(** [d[k] = v]: an existing key keeps its position, a new key goes last. *)
Fixpoint dict_set {V : Type} (d : list (string * V)) (k : string) (v : V)
    : list (string * V) :=
  match d with
  | [] => [(k, v)]
  | (k', v') :: d' =>
      if String.eqb k k' then (k', v) :: d' else (k', v') :: dict_set d' k v
  end.

(** [{**a, **b}]: the keys of [b] override those of [a]. *)
Definition dict_merge (a b : jobj) : jobj :=
  fold_left (fun acc kv => dict_set acc (fst kv) (snd kv)) b a.

Definition jopt_str (o : option string) : jval :=
  match o with Some s => JStr s | None => JNull end.

(** ** Errors and the store *)

Inductive error : Type :=
| StoreError
| JSONDecodeError
| TypeError
| OverflowError.

Inductive exc (A : Type) : Type :=
| Ok (a : A)
| Exc (e : error).
Arguments Ok {A} a.
Arguments Exc {A} e.

Inductive ctext : Type :=
| Serialized (o : jobj)
| Unparsable (raw : string).

(** [json.loads] *)
Definition json_loads (c : ctext) : exc jobj :=
  match c with
  | Serialized o => Ok o
  | Unparsable _ => Exc JSONDecodeError
  end.

(** [d.get(k, default)] used as a number: [bool] is an [int] in Python,
    [None] and [str] make the arithmetic or the comparison raise. *)
Definition get_num (d : jobj) (k : string) (default : Q) : exc Q :=
  match dget d k with
  | None => Ok default
  | Some (JNum q) => Ok q
  | Some (JBool b) => Ok (if b then 1 else 0)
  | Some _ => Exc TypeError
  end.

Inductive mkind : Type := Episodic | Semantic | Procedural | Working.

Definition mkind_eqb (a b : mkind) : bool :=
  match a, b with
  | Episodic, Episodic | Semantic, Semantic
  | Procedural, Procedural | Working, Working => true
  | _, _ => false
  end.

Inductive importance : Type := Low | Medium | High | Critical.

Record row : Type := mkRow {
  r_id : string;
  r_user : string;
  r_kind : mkind;
  r_session : option string;
  r_content : string;
  r_context : ctext;
  r_importance : importance;
  r_recorded_at : Z;
  r_last_accessed : Z;
  r_access_count : Z;
  r_decay : Q
}.

(** A row of the [messages] table. *)
Record msg_row : Type := mkMsg {
  m_session : string;
  m_role : string;
  m_content : string;
  m_created_at : Z
}.

(** A working-memory cache entry: [{"value": v, "expires": t}]. *)
Definition cache := list (string * (jval * Z)).

Record world : Type := mkWorld {
  w_rows : list row;
  w_messages : list msg_row;
  w_down : mkind -> bool;
  w_msgs_down : bool;
  w_cache : cache;
  w_now : Z
}.

Definition set_rows (w : world) (rs : list row) : world :=
  mkWorld rs (w_messages w) (w_down w) (w_msgs_down w) (w_cache w) (w_now w).

Definition set_cache (w : world) (c : cache) : world :=
  mkWorld (w_rows w) (w_messages w) (w_down w) (w_msgs_down w) c (w_now w).

(** ** A state and exception monad *)

Definition M (A : Type) : Type := world -> exc A * world.

Definition ret {A} (a : A) : M A := fun w => (Ok a, w).

Definition bind {A B} (m : M A) (k : A -> M B) : M B :=
  fun w => match m w with
           | (Ok a, w') => k a w'
           | (Exc e, w') => (Exc e, w')
           end.

Definition raise {A} (e : error) : M A := fun w => (Exc e, w).

(** [try: m except: h] *)
Definition catch {A} (m : M A) (h : error -> M A) : M A :=
  fun w => match m w with
           | (Exc e, w') => h e w'
           | r => r
           end.

Definition lift {A} (x : exc A) : M A :=
  fun w => (x, w).

Definition get_now : M Z := fun w => (Ok (w_now w), w).

(** *** [datetime] and [timedelta] arithmetic, in seconds since the epoch

    A [timedelta] keeps its [days] within [-999999999 .. 999999999]; a
    [datetime] lies between [datetime.min] (0001-01-01 00:00:00) and
    [datetime.max] (9999-12-31 23:59:59.999999). Leaving either range
    raises [OverflowError]. *)

Definition timedelta_ok (secs : Z) : bool :=
  (-999999999 * 86400 <=? secs)%Z && (secs <? 1000000000 * 86400)%Z.

Definition datetime_ok (t : Z) : bool :=
  (-62135596800 <=? t)%Z && (t <=? 253402300799)%Z.

(** [t + timedelta(seconds=secs)] *)
Definition dt_add (t secs : Z) : exc Z :=
  if timedelta_ok secs && datetime_ok (t + secs) then Ok (t + secs)%Z else Exc OverflowError.

(** [t - timedelta(seconds=secs)] *)
Definition dt_sub (t secs : Z) : exc Z :=
  if timedelta_ok secs && datetime_ok (t - secs) then Ok (t - secs)%Z else Exc OverflowError.

Notation "x <- m ;; k" := (bind m (fun x => k))
  (at level 61, m at next level, right associativity).
Notation "m ;;; k" := (bind m (fun _ => k))
  (at level 61, right associativity).

(** *** Store calls of the memory of kind [k] *)

(** [select("*").eq("memory_type", k)] with further filters [p]. *)
Definition select (k : mkind) (p : row -> bool) : M (list row) :=
  fun w => if w_down w k then (Exc StoreError, w)
           else (Ok (filter (fun r => mkind_eqb (r_kind r) k && p r) (w_rows w)), w).

(** A select issued by the memory of kind [k] that does not filter on the
    memory type (the lookup by [id] of working memory). *)
Definition select_any (k : mkind) (p : row -> bool) : M (list row) :=
  fun w => if w_down w k then (Exc StoreError, w)
           else (Ok (filter p (w_rows w)), w).

(** [update(patch).eq("id", i)] *)
Definition update_by_id (k : mkind) (i : string) (patch : row -> row) : M unit :=
  fun w => if w_down w k then (Exc StoreError, w)
           else (Ok tt, set_rows w (map (fun r => if String.eqb (r_id r) i then patch r else r)
                                        (w_rows w))).

(** [insert(row)]: the primary key [id] must be fresh. *)
Definition insert (k : mkind) (r : row) : M unit :=
  fun w => if w_down w k then (Exc StoreError, w)
           else if existsb (fun r' => String.eqb (r_id r') (r_id r)) (w_rows w)
           then (Exc StoreError, w)
           else (Ok tt, set_rows w (w_rows w ++ [r])).

(** [delete().eq("memory_type", k)] with further filters [p] *)
Definition delete (k : mkind) (p : row -> bool) : M unit :=
  fun w => if w_down w k then (Exc StoreError, w)
           else (Ok tt, set_rows w (filter (fun r => negb (mkind_eqb (r_kind r) k && p r))
                                           (w_rows w))).

(** ** Strings *)

Definition ascii_lower (c : ascii) : ascii :=
  let n := nat_of_ascii c in
  if Nat.leb 65 n && Nat.leb n 90 then ascii_of_nat (n + 32)%nat else c.

Fixpoint str_lower (s : string) : string :=
  match s with
  | EmptyString => EmptyString
  | String c s' => String (ascii_lower c) (str_lower s')
  end.

(** Python's [pat in s] *)
Fixpoint contains (pat s : string) : bool :=
  String.prefix pat s ||
  match s with
  | EmptyString => false
  | String _ s' => contains pat s'
  end.

Fixpoint suffixes (t : list ascii) : list (list ascii) :=
  match t with
  | [] => [[]]
  | _ :: t' => t :: suffixes t'
  end.

(** The filter [.ilike(column, pattern)]. PostgREST first turns every [*]
    of the pattern into [%]. PostgreSQL's [ILIKE] then lower-cases pattern
    and text and matches them: [%] matches any run of characters, [_] any
    one character, [\] makes the next character stand for itself, and every
    other character stands for itself. A pattern ending in a lone [\] is
    an error in PostgreSQL; every pattern the code builds is [pct s], which
    ends in [%], so that case does not arise and yields [false] here. *)
Definition postgrest_star (c : ascii) : ascii :=
  if Ascii.eqb c "*"%char then "%"%char else c.

Fixpoint like_match (p t : list ascii) : bool :=
  match p with
  | [] => match t with [] => true | _ => false end
  | c :: p' =>
      if Ascii.eqb c "%"%char then existsb (fun s => like_match p' s) (suffixes t)
      else if Ascii.eqb c "\"%char then
        match p', t with
        | e :: p'', d :: t' => Ascii.eqb (ascii_lower e) (ascii_lower d) && like_match p'' t'
        | _, _ => false
        end
      else match t with
           | [] => false
           | d :: t' =>
               (Ascii.eqb c "_"%char || Ascii.eqb (ascii_lower c) (ascii_lower d))
               && like_match p' t'
           end
  end.

Definition ilike (content pattern : string) : bool :=
  like_match (map postgrest_star (list_ascii_of_string pattern)) (list_ascii_of_string content).

(** [s] holds no backslash, the escape character of [LIKE] patterns. *)
Definition no_backslash (s : string) : bool :=
  forallb (fun c => negb (Ascii.eqb c "\"%char)) (list_ascii_of_string s).

(** [f"%{s}%"] *)
Definition pct (s : string) : string := "%" ++ s ++ "%".

(** ** Stable sort in descending order of a rational key
    ([list.sort(key=..., reverse=True)] and [ORDER BY ... DESC]) *)

Section SortDesc.
Variable A : Type.
Variable key : A -> Q.

Fixpoint insert_desc (x : A) (l : list A) : list A :=
  match l with
  | [] => [x]
  | y :: l' => if Qle_bool (key y) (key x) then x :: y :: l' else y :: insert_desc x l'
  end.

Definition sort_desc (l : list A) : list A := fold_right insert_desc [] l.

End SortDesc.
Arguments insert_desc {A} key x l.
Arguments sort_desc {A} key l.

(** ** The memory classes *)

Section Memory.

(** [hashlib.sha256(s.encode()).hexdigest()[:16]] *)
Variable hash16 : string -> string.
(** [datetime.isoformat()] *)
Variable isoformat : Z -> string.

(** *** EpisodicMemory *)

(** [r] with its [access_count] raised by [n]. *)
Definition add_access (n : Z) (r : row) : row :=
  mkRow (r_id r) (r_user r) (r_kind r) (r_session r) (r_content r) (r_context r)
    (r_importance r) (r_recorded_at r) (r_last_accessed r) (r_access_count r + n) (r_decay r).

Definition bump_access (memory_id : string) (r : row) : row :=
  if String.eqb (r_id r) memory_id then add_access 1 r else r.

(** [rpc("increment_access_count", {"memory_id": ...}).execute()]: the
    server-side function is not part of the repository; it is taken to
    do what the spec says, raise the [access_count] of the row with that
    [id] by one. *)
Definition rpc_increment_access_count (memory_id : string) : M unit :=
  fun w => if w_down w Episodic then (Exc StoreError, w)
           else (Ok tt, set_rows w (map (bump_access memory_id) (w_rows w))).

(** [_update_access]: the RPC runs first. Its response object then becomes
    the [access_count] of the patch, which cannot be serialised as JSON
    when the update is sent ([TypeError]), so [last_accessed] is never
    written. Every failure is swallowed. *)
Definition update_access (memory_id : string) : M unit :=
  catch (rpc_increment_access_count memory_id ;;; raise TypeError) (fun _ => ret tt).

Fixpoint mapM_ {A} (f : A -> M unit) (l : list A) : M unit :=
  match l with
  | [] => ret tt
  | x :: l' => f x ;;; mapM_ f l'
  end.

(** The cutoff of [recall_episodes]: none unless [time_range_days] is
    truthy (not [None], not [0]); otherwise
    [datetime.utcnow() - timedelta(days=time_range_days)], which may
    overflow. *)
Definition recall_cutoff (time_range_days : option Z) (now : Z) : exc (option Z) :=
  match time_range_days with
  | Some d =>
      if Z.eqb d 0 then Ok None
      else match dt_sub now (d * 86400) with
           | Ok c => Ok (Some c)
           | Exc e => Exc e
           end
  | None => Ok None
  end.

(** The [.gte("recorded_at", cutoff)] filter. *)
Definition in_time_range (cutoff : option Z) (r : row) : bool :=
  match cutoff with
  | Some c => Z.leb c (r_recorded_at r)
  | None => true
  end.

(** [EpisodicMemory.recall_episodes]; [query] is not used by the source. *)
Definition recall_episodes (user_id : string) (query : string) (limit : nat)
    (time_range_days : option Z) : M (list row) :=
  now <- get_now ;;
  cutoff <- lift (recall_cutoff time_range_days now) ;;
  rs <- select Episodic (fun r => String.eqb (r_user r) user_id && in_time_range cutoff r) ;;
  let data := firstn limit (sort_desc (fun r => inject_Z (r_recorded_at r)) rs) in
  mapM_ (fun r => update_access (r_id r)) data ;;;
  ret data.

(** *** SemanticMemory *)

(** [SemanticMemory.store_fact] *)
Definition store_fact (user_id category fact : string) (confidence : Q)
    (source_session : option string) : M string :=
  let memory_id := hash16 (user_id ++ ":semantic:" ++ category ++ ":" ++ substring 0 50 fact) in
  existing <- select Semantic (fun r => String.eqb (r_user r) user_id
                                        && ilike (r_content r) (pct (substring 0 30 fact))) ;;
  now <- get_now ;;
  match existing with
  | e :: _ =>
      update_by_id Semantic (r_id e)
        (fun r => mkRow (r_id r) (r_user r) (r_kind r) (r_session r) (r_content r)
                    (Serialized [("category", JStr category);
                                 ("confidence", JNum (Qmin (confidence + (1#10)) 1));
                                 ("source_session", jopt_str source_session);
                                 ("updated_at", JStr (isoformat now))])
                    (r_importance r) (r_recorded_at r) now (r_access_count r) (r_decay r)) ;;;
      ret (r_id e)
  | [] =>
      let memory_data :=
        mkRow memory_id user_id Semantic None fact
          (Serialized [("category", JStr category);
                       ("confidence", JNum confidence);
                       ("source_session", jopt_str source_session)])
          High now now 0 1 in
      catch (insert Semantic memory_data) (fun _ => ret tt) ;;;
      ret memory_id
  end.

Record profile : Type := mkProfile {
  p_learning_style : list string;
  p_proficiencies : list (string * string);
  p_interests : list string;
  p_challenges : list string;
  p_preferences : list (string * jval);
  p_raw_facts : list string
}.

Definition empty_profile : profile := mkProfile [] [] [] [] [] [].

(** [str.split(":")] *)
Fixpoint split_colon_aux (s : string) (cur : string) : list string :=
  match s with
  | EmptyString => [cur]
  | String c s' =>
      if Ascii.eqb c ":"%char then cur :: split_colon_aux s' ""
      else split_colon_aux s' (cur ++ String c "")
  end.

Definition split_colon (s : string) : list string := split_colon_aux s "".

(** [str.isspace] on a 7-bit character: tab to carriage return, the four
    information separators [\x1c] to [\x1f], and space. *)
Definition is_space (c : ascii) : bool :=
  let n := nat_of_ascii c in
  Nat.eqb n 32 || (Nat.leb 9 n && Nat.leb n 13) || (Nat.leb 28 n && Nat.leb n 31).

Fixpoint lstrip (s : string) : string :=
  match s with
  | EmptyString => EmptyString
  | String c s' => if is_space c then lstrip s' else s
  end.

Definition rev_string (s : string) : string :=
  string_of_list_ascii (rev (list_ascii_of_string s)).

(** [str.strip()] *)
Definition strip (s : string) : string := rev_string (lstrip (rev_string (lstrip s))).

Definition profile_add (p : profile) (content : string) (context : jobj) : profile :=
  let category := match dget context "category" with Some v => v | None => JStr "general" end in
  let '(mkProfile ls pr it ch pf rf) := p in
  match category with
  | JStr "learning_style" => mkProfile (ls ++ [content]) pr it ch pf rf
  | JStr "proficiency" =>
      match split_colon content with
      | [a; b] => mkProfile ls (dict_set pr (strip a) (strip b)) it ch pf rf
      | _ => p
      end
  | JStr "interest" => mkProfile ls pr (it ++ [content]) ch pf rf
  | JStr "challenge" => mkProfile ls pr it (ch ++ [content]) pf rf
  | JStr "preference" =>
      mkProfile ls pr it ch
        (dict_set pf content (match dget context "value" with Some v => v | None => JBool true end)) rf
  | _ => mkProfile ls pr it ch pf (rf ++ [content])
  end.

(** The subject a row sets in [proficiencies] when [get_user_profile]
    reads it: [Some (strip a)] for a row of category [proficiency] whose
    content splits into [a:b], [None] for any other row. *)
Definition proficiency_subject (content : string) (context : jobj) : option string :=
  let category := match dget context "category" with Some v => v | None => JStr "general" end in
  match category with
  | JStr "proficiency" =>
      match split_colon content with
      | [a; _] => Some (strip a)
      | _ => None
      end
  | _ => None
  end.

Definition row_proficiency_subject (r : row) : option string :=
  match r_context r with
  | Serialized context => proficiency_subject (r_content r) context
  | Unparsable _ => None
  end.

Fixpoint foldM {A B} (f : A -> B -> M A) (acc : A) (l : list B) : M A :=
  match l with
  | [] => ret acc
  | x :: l' => a <- f acc x ;; foldM f a l'
  end.

(** [SemanticMemory.get_user_profile] *)
Definition get_user_profile (user_id : string) : M profile :=
  rs <- select Semantic (fun r => String.eqb (r_user r) user_id) ;;
  foldM (fun p r => context <- lift (json_loads (r_context r)) ;;
                    ret (profile_add p (r_content r) context))
        empty_profile rs.

(** *** ProceduralMemory *)

(** [ProceduralMemory.store_procedure] *)
Definition store_procedure (user_id procedure_type description : string)
    (success_rate : Q) (context : jobj) : M string :=
  let memory_id :=
    hash16 (user_id ++ ":procedural:" ++ procedure_type ++ ":" ++ substring 0 30 description) in
  existing <- select Procedural (fun r => String.eqb (r_user r) user_id
                                          && ilike (r_content r) (pct (substring 0 20 description))) ;;
  now <- get_now ;;
  match existing with
  | e :: _ =>
      old_context <- lift (json_loads (r_context e)) ;;
      old_rate <- lift (get_num old_context "success_rate" (1#2)) ;;
      let new_rate := (7#10) * success_rate + (3#10) * old_rate in
      let old_context := dict_set old_context "success_rate" (JNum new_rate) in
      use_count <- lift (get_num old_context "use_count" 0) ;;
      let old_context := dict_set old_context "use_count" (JNum (use_count + 1)) in
      update_by_id Procedural (r_id e)
        (fun r => mkRow (r_id r) (r_user r) (r_kind r) (r_session r) (r_content r)
                    (Serialized old_context)
                    (r_importance r) (r_recorded_at r) now (r_access_count r) (r_decay r)) ;;;
      ret (r_id e)
  | [] =>
      let memory_data :=
        mkRow memory_id user_id Procedural None description
          (Serialized (dict_merge [("procedure_type", JStr procedure_type);
                                   ("success_rate", JNum success_rate);
                                   ("use_count", JNum 1)] context))
          (if Qle_bool success_rate (7#10) then Medium else High)
          now now 0 1 in
      catch (insert Procedural memory_data) (fun _ => ret tt) ;;;
      ret memory_id
  end.

Record strategy : Type := mkStrategy {
  s_description : string;
  s_success_rate : Q;
  s_use_count : Q;
  s_type : jval
}.

(** The sort key [x["success_rate"] * min(x["use_count"], 10)] *)
Definition strategy_score (s : strategy) : Q :=
  s_success_rate s * Qmin (s_use_count s) 10.

Definition type_matches (context_type : option string) (context : jobj) : bool :=
  match context_type with
  | None => true
  | Some ct => match dget context "procedure_type" with
               | Some (JStr t) => String.eqb t ct
               | _ => false
               end
  end.

(** The body of the loop over the rows in [get_effective_strategies]. *)
Definition strategies_step (context_type : option string) (min_success_rate : Q)
    (acc : list strategy) (r : row) : M (list strategy) :=
  context <- lift (json_loads (r_context r)) ;;
  sr <- lift (get_num context "success_rate" 0) ;;
  if Qle_bool min_success_rate sr then
    if type_matches context_type context then
      uc <- lift (get_num context "use_count" 0) ;;
      ret (acc ++ [mkStrategy (r_content r) sr uc
                     (match dget context "procedure_type" with
                      | Some v => v | None => JStr "general" end)])
    else ret acc
  else ret acc.

(** [ProceduralMemory.get_effective_strategies] *)
Definition get_effective_strategies (user_id : string) (context_type : option string)
    (min_success_rate : Q) : M (list strategy) :=
  rs <- select Procedural (fun r => String.eqb (r_user r) user_id) ;;
  strategies <- foldM (strategies_step context_type min_success_rate) [] rs ;;
  ret (firstn 10 (sort_desc strategy_score strategies)).

(** [ProceduralMemory.record_explanation_outcome] *)
Definition record_explanation_outcome (user_id topic explanation_style : string)
    (was_successful : bool) (feedback : option string) : M unit :=
  let success_rate := if was_successful then 1 else 0 in
  store_procedure user_id "explanation" ("For " ++ topic ++ ": " ++ explanation_style)
    success_rate
    [("topic", JStr topic); ("style", JStr explanation_style); ("feedback", jopt_str feedback)] ;;;
  ret tt.

(** *** WorkingMemory (its [_cache] is the [w_cache] of the world) *)

Definition wm_id (session_id key : string) : string := "wm:" ++ session_id ++ ":" ++ key.

(** [WorkingMemory.get_from_context] *)
Definition get_from_context (session_id key : string) : M jval :=
  fun w =>
    let from_db : M jval :=
      rs <- select_any Working (fun r => String.eqb (r_id r) (wm_id session_id key)) ;;
      match rs with
      | r :: _ => context <- lift (json_loads (r_context r)) ;;
                  ret (match dget context "value" with Some v => v | None => JNull end)
      | [] => ret JNull
      end in
    match dget (w_cache w) key with
    | Some (value, expires) =>
        if Z.ltb (w_now w) expires then (Ok value, w)
        else from_db (set_cache w (dict_del (w_cache w) key))
    | None => from_db w
    end.

Definition get_current_topic (session_id : string) : M jval :=
  get_from_context session_id "current_topic".

Definition select_messages (p : msg_row -> bool) : M (list msg_row) :=
  fun w => if w_msgs_down w then (Exc StoreError, w) else (Ok (filter p (w_messages w)), w).

Definition summary_line (m : msg_row) : string :=
  let role := if String.eqb (m_role m) "user" then "User" else "Assistant" in
  let content := if Nat.ltb 200 (String.length (m_content m))
                 then (substring 0 200 (m_content m) ++ "...")%string else m_content m in
  (role ++ ": " ++ content)%string.

Definition no_context_sentinel : string := "No previous context in this conversation.".

Fixpoint join_lines (l : list string) : string :=
  match l with
  | [] => ""
  | [x] => x
  | x :: l' => (x ++ String (ascii_of_nat 10) "" ++ join_lines l')%string
  end.

(** [WorkingMemory.get_conversation_summary] *)
Definition get_conversation_summary (session_id : string) : M string :=
  ms <- select_messages (fun m => String.eqb (m_session m) session_id) ;;
  let data := firstn 10 (sort_desc (fun m => inject_Z (m_created_at m)) ms) in
  match data with
  | [] => ret no_context_sentinel
  | _ => ret (join_lines (map summary_line (rev data)))
  end.

Definition opt_str_eqb (o : option string) (s : string) : bool :=
  match o with Some s' => String.eqb s' s | None => false end.

(** [WorkingMemory.clear_session] *)
Definition clear_session (session_id : string) : M unit :=
  (fun w => (Ok tt, set_cache w [])) ;;;
  catch (delete Working (fun r => opt_str_eqb (r_session r) session_id)) (fun _ => ret tt).

(** *** MemoryManager *)

Record bundle : Type := mkBundle {
  b_query : string;
  b_recorded_at : string;
  b_session_id : string;
  b_user_profile : option profile;
  b_relevant_history : option (list (string * Z * jobj));
  b_effective_strategies : option (list strategy);
  b_current_topic : jval;
  b_conversation_summary : string
}.

Fixpoint mapM {A B} (f : A -> M B) (l : list A) : M (list B) :=
  match l with
  | [] => ret []
  | x :: l' => y <- f x ;; ys <- mapM f l' ;; ret (y :: ys)
  end.

(** [MemoryManager.build_context_for_query]; the keys that are not set
    are [None]. *)
Definition build_context_for_query (user_id session_id query : string)
    (include_profile include_history include_strategies : bool)
    (max_episodes : nat) : M bundle :=
  now <- get_now ;;
  user_profile <-
    (if include_profile then p <- get_user_profile user_id ;; ret (Some p)
     else ret None) ;;
  relevant_history <-
    (if include_history then
       episodes <- recall_episodes user_id query max_episodes None ;;
       h <- mapM (fun ep => c <- lift (json_loads (r_context ep)) ;;
                            ret (r_content ep, r_recorded_at ep, c)) episodes ;;
       ret (Some h)
     else ret None) ;;
  effective_strategies <-
    (if include_strategies then
       strategies <- get_effective_strategies user_id None (6#10) ;;
       ret (Some (firstn 5 strategies))
     else ret None) ;;
  current_topic <- get_current_topic session_id ;;
  conversation_summary <- get_conversation_summary session_id ;;
  ret (mkBundle query (isoformat now) session_id user_profile relevant_history
         effective_strategies current_topic conversation_summary).

End Memory.

(** ** The router of [supervisor.py] *)

Module Supervisor.

(** The message objects [get_message_content] accepts. *)
Inductive message : Type :=
| MsgDict (d : list (string * string))     (* a dict *)
| MsgObj (content : string)                (* an object with [.content] *)
| MsgOther (repr : string).                (* anything else, via [str] *)

(** [get_message_content] *)
Definition get_message_content (m : message) : string :=
  match m with
  | MsgDict d => match dget d "content" with Some c => c | None => "" end
  | MsgObj c => c
  | MsgOther r => r
  end.

(** The fields of [AgentState] the router reads and writes. *)
Record agent_state : Type := mkState {
  messages : list message;
  next_step : string
}.

Definition rag_patterns : list string :=
  ["my document"; "the document"; "uploaded file"; "uploaded document";
   "the textbook"; "my textbook"; "this pdf"; "the pdf"; "my file";
   "from the document"; "in the document"; "according to the document";
   "based on the document"; "what does the document say"; "the file says"].

Definition visual_patterns : list string :=
  ["show me"; "draw"; "diagram"; "image"; "picture"; "visualize";
   "visual"; "illustration"; "chart"; "graph"; "sketch"; "figure";
   "can you show"; "create an image"; "make a diagram"; "generate image"].

Definition presentation_patterns : list string :=
  ["presentation"; "slides"; "slide deck"; "powerpoint"; "ppt";
   "create slides"; "make slides"; "make a presentation";
   "create a presentation"; "slideshow"].

Definition feynman_patterns : list string :=
  ["let me explain"; "i'll explain"; "i will explain"; "i want to explain";
   "let me teach"; "i'll teach"; "i understand it as"; "my understanding is";
   "here's how i see it"; "in my words"; "can i explain"; "test my understanding"].

Definition advocate_patterns : list string :=
  ["debate"; "argue"; "devil's advocate"; "counter argument"; "play devil";
   "challenge my"; "disagree with"; "opposing view"; "other side";
   "what's wrong with"; "critique"; "critical thinking"].

(** [for pattern in patterns: if pattern in text: agent_name = label; break] *)
Definition scan (patterns : list string) (label text agent_name : string) : string :=
  if existsb (fun pattern => contains pattern text) patterns then label else agent_name.

Definition last_message (ms : list message) : string :=
  match rev ms with
  | m :: _ => get_message_content m
  | [] => ""
  end.

(** [supervisor_node] *)
Definition supervisor_node (state : agent_state) : agent_state :=
  let last_message_lower := str_lower (last_message (messages state)) in
  let agent_name := "tutor" in
  let agent_name := scan rag_patterns "rag" last_message_lower agent_name in
  let agent_name := if String.eqb agent_name "tutor"
                    then scan presentation_patterns "presentation" last_message_lower agent_name
                    else agent_name in
  let agent_name := if String.eqb agent_name "tutor"
                    then scan visual_patterns "visual" last_message_lower agent_name
                    else agent_name in
  let agent_name := if String.eqb agent_name "tutor"
                    then scan feynman_patterns "feynman" last_message_lower agent_name
                    else agent_name in
  let agent_name := if String.eqb agent_name "tutor"
                    then scan advocate_patterns "advocate" last_message_lower agent_name
                    else agent_name in
  mkState (messages state) agent_name.

(** The classifier in the words of the spec: lower-case the text, then the
    first pattern group (document, presentation, visual, reverse-teaching,
    debate) with a member contained in it decides, else the default. *)
Definition classify_spec (text : string) : string :=
  let t := str_lower text in
  let hit ps := existsb (fun p => contains p t) ps in
  if hit rag_patterns then "rag"
  else if hit presentation_patterns then "presentation"
  else if hit visual_patterns then "visual"
  else if hit feynman_patterns then "feynman"
  else if hit advocate_patterns then "advocate"
  else "tutor".


Definition diagram_patterns : list string :=
  ["diagram"; "flowchart"; "flow chart"; "block diagram";
   "process diagram"; "svg"; "chart"; "hierarchy";
   "org chart"; "organization chart"; "tree diagram";
   "sequence diagram"; "architecture diagram"; "system diagram";
   "create a diagram"; "draw a diagram"; "make a flowchart";
   "visualize the process"; "show the flow"; "workflow diagram"].

Definition image_patterns : list string :=
  ["generate image"; "create image"; "draw a picture"; "make an image";
   "generate a picture"; "create a picture"; "illustrate";
   "generate art"; "create art"; "make art"; "artwork";
   "image of"; "picture of"; "photo of"; "painting of";
   "render"; "design an image"; "generate visual";
   "stable diffusion"; "ai image"; "ai art"; "realistic image"].

Definition report_patterns : list string :=
  ["report"; "document"; "detailed analysis"; "comprehensive";
   "write about"; "research paper"; "essay"; "thesis";
   "summarize in detail"; "full explanation"; "in-depth";
   "generate a report"; "create a document"; "write a paper"].

Definition tool_presentation_patterns : list string :=
  ["presentation"; "ppt"; "powerpoint"; "slides"; "slide deck";
   "create slides"; "make a presentation"; "design slides";
   "keynote"; "pitch deck"; "slideshow"].

(** [auto_select_tool]: each [for pattern in ...: if pattern in
    message_lower: return ...] loop is an [existsb]. *)
Definition auto_select_tool (message : string) : string :=
  let message_lower := str_lower message in
  if existsb (fun pattern => contains pattern message_lower) diagram_patterns then "diagram"
  else if existsb (fun pattern => contains pattern message_lower) image_patterns then "image"
  else if existsb (fun pattern => contains pattern message_lower) report_patterns then "report"
  else if existsb (fun pattern => contains pattern message_lower) tool_presentation_patterns
  then "presentation"
  else "chat".
End Supervisor.

(** ** The rest of [memory.py] and the memory helpers of [supervisor.py] *)

(** [ORDER BY ... ASC]: a stable sort in ascending order of a rational key. *)
Section SortAsc.
Variable A : Type.
Variable key : A -> Q.

Fixpoint insert_asc (x : A) (l : list A) : list A :=
  match l with
  | [] => [x]
  | y :: l' => if Qle_bool (key x) (key y) then x :: y :: l' else y :: insert_asc x l'
  end.

Definition sort_asc (l : list A) : list A := fold_right insert_asc [] l.

End SortAsc.
Arguments insert_asc {A} key x l.
Arguments sort_asc {A} key l.

(** [upsert(row)] keyed on the primary key [id]: the row replaces the row
    with its id, or is appended when there is none. *)
Definition upsert (k : mkind) (r : row) : M unit :=
  fun w => if w_down w k then (Exc StoreError, w)
           else if existsb (fun r' => String.eqb (r_id r') (r_id r)) (w_rows w)
           then (Ok tt, set_rows w (map (fun r' => if String.eqb (r_id r') (r_id r) then r else r')
                                        (w_rows w)))
           else (Ok tt, set_rows w (w_rows w ++ [r])).

(** A fresh [MemoryManager] (or [WorkingMemory]) starts with an empty
    [_cache] and is dropped afterwards: the caller's cache is left alone. *)
Definition with_fresh_cache {A} (m : M A) : M A :=
  fun w => let '(res, w') := m (set_cache w []) in (res, set_cache w' (w_cache w)).

(** *** Rows and worlds up to the access statistics

    [recall_episodes] raises the [access_count] of the rows it returns;
    [forget_access] blanks that field, so that two worlds that differ in
    it only have the same [forget_world]. *)

Definition forget_access (r : row) : row :=
  mkRow (r_id r) (r_user r) (r_kind r) (r_session r) (r_content r) (r_context r)
    (r_importance r) (r_recorded_at r) (r_last_accessed r) 0 (r_decay r).

Definition forget_world (w : world) : world := set_rows w (map forget_access (w_rows w)).





(** [", ".join(l)] and the like *)
Fixpoint join_with (sep : string) (l : list string) : string :=
  match l with
  | [] => ""
  | [x] => x
  | x :: l' => (x ++ sep ++ join_with sep l')%string
  end.

(** Python's truth value of a JSON value, and [str] of it ([str] of a
    number is the library's float or int formatting, kept abstract). *)
Definition py_truthy (v : jval) : bool :=
  match v with
  | JNull => false
  | JBool b => b
  | JNum q => negb (Qeq_bool q 0)
  | JStr s => negb (String.eqb s "")
  end.

(** [topic or default] for an optional string *)
Definition str_or (o : option string) (default : string) : string :=
  match o with
  | Some s => if String.eqb s "" then default else s
  | None => default
  end.

Definition opt_string_eqb (a b : option string) : bool :=
  match a, b with
  | Some x, Some y => String.eqb x y
  | None, None => true
  | _, _ => false
  end.

(** [MemoryManager._detect_explanation_style]. Text is a string of bytes:
    [response[:200]] keeps 200 of them and [lower()] maps A-Z, as Python
    does on ASCII text; the bullet U+2022 is looked for as its UTF-8
    encoding. *)
Definition bullet : string :=
  String (ascii_of_nat 226) (String (ascii_of_nat 128) (String (ascii_of_nat 162) "")).

Definition explanation_styles (response : string) : list string :=
  (if contains "?" (substring 0 200 response) then ["socratic"] else []) ++
  (if contains "example" (str_lower response) || contains "for instance" (str_lower response)
   then ["example-based"] else []) ++
  (if contains "1." response || contains bullet response || contains "- " response
   then ["structured-list"] else []) ++
  (if contains "imagine" (str_lower response) || contains "think of" (str_lower response)
   then ["analogy"] else []) ++
  (if contains "```" response then ["code-example"] else []) ++
  (if contains "![" response then ["visual"] else []).

Definition detect_explanation_style (response : string) : string :=
  match explanation_styles response with
  | [] => "direct-explanation"
  | styles => join_with ", " styles
  end.

(** [fact.get(k, default)] on a dict of strings *)
Definition sget (d : list (string * string)) (k default : string) : string :=
  match dget d k with Some v => v | None => default end.

Section Memory2.

Variable hash16 : string -> string.
Variable isoformat : Z -> string.
(** [str] of a number *)
Variable py_num_str : Q -> string.

Definition py_str (v : jval) : string :=
  match v with
  | JNull => "None"
  | JBool true => "True"
  | JBool false => "False"
  | JNum q => py_num_str q
  | JStr s => s
  end.

(** [EpisodicMemory.store_episode] *)
Definition store_episode (user_id session_id content : string) (context : jobj)
    (imp : importance) : M string :=
  now <- get_now ;;
  let memory_id := hash16 (user_id ++ ":" ++ session_id ++ ":" ++ isoformat now)%string in
  let memory_data :=
    mkRow memory_id user_id Episodic (Some session_id) content (Serialized context) imp
      now now 0 1 in
  catch (insert Episodic memory_data) (fun _ => ret tt) ;;;
  ret memory_id.

(** [EpisodicMemory.get_session_history]: no filter on the memory type. *)
Definition get_session_history (user_id session_id : string) : M (list row) :=
  rs <- select_any Episodic (fun r => String.eqb (r_user r) user_id
                                      && opt_str_eqb (r_session r) session_id) ;;
  ret (sort_asc (fun r => inject_Z (r_recorded_at r)) rs).

(** [SemanticMemory.update_proficiency] *)
Definition update_proficiency (user_id subject level evidence : string) : M unit :=
  store_fact hash16 isoformat user_id "proficiency" (subject ++ ": " ++ level)%string (85#100)
    (Some evidence) ;;;
  ret tt.

(** [SemanticMemory.record_learning_preference]; [value] is not used. *)
Definition record_learning_preference (user_id preference : string) (value : jval) : M unit :=
  store_fact hash16 isoformat user_id "preference" preference (9#10) None ;;;
  ret tt.

(** [WorkingMemory.add_to_context] *)
Definition add_to_context (user_id session_id key : string) (value : jval)
    (ttl_minutes : Z) : M unit :=
  now <- get_now ;;
  expires <- lift (dt_add now (ttl_minutes * 60)) ;;
  (fun w => (Ok tt, set_cache w (dict_set (w_cache w) key (value, expires)))) ;;;
  let memory_data :=
    mkRow (wm_id session_id key) user_id Working (Some session_id) key
      (Serialized [("value", value); ("ttl_minutes", JNum (inject_Z ttl_minutes))])
      Low now now 0 1 in
  catch (upsert Working memory_data) (fun _ => ret tt).

Definition set_current_topic (user_id session_id topic : string) : M unit :=
  add_to_context user_id session_id "current_topic" (JStr topic) 120.

Definition set_learning_goal (user_id session_id goal : string) : M unit :=
  add_to_context user_id session_id "learning_goal" (JStr goal) 180.

(** [MemoryManager.process_interaction] *)
Definition process_interaction (user_id session_id user_message assistant_response : string)
    (topic : option string) (was_helpful : option bool)
    (extracted_facts : option (list (list (string * string)))) : M unit :=
  store_episode user_id session_id
    ("User asked about: " ++ substring 0 100 user_message ++ "... Response covered: "
     ++ substring 0 100 assistant_response ++ "...")%string
    [("topic", jopt_str topic);
     ("helpful", match was_helpful with Some b => JBool b | None => JNull end);
     ("message_length", JNum (inject_Z (Z.of_nat (String.length user_message))));
     ("response_length", JNum (inject_Z (Z.of_nat (String.length assistant_response))))]
    Medium ;;;
  (match topic with
   | Some t => if String.eqb t "" then ret tt else set_current_topic user_id session_id t
   | None => ret tt
   end) ;;;
  (match extracted_facts with
   | Some facts =>
       mapM_ (fun fact => store_fact hash16 isoformat user_id (sget fact "category" "general")
                            (sget fact "fact" "") (4#5) (Some session_id) ;;; ret tt) facts
   | None => ret tt
   end) ;;;
  match was_helpful with
  | Some b => record_explanation_outcome hash16 user_id (str_or topic "general")
                (detect_explanation_style assistant_response) b None
  | None => ret tt
  end.

(** [MemoryManager.consolidate_memories] *)
Definition consolidate_memories (user_id session_id : string) : M unit :=
  summary <- get_conversation_summary session_id ;;
  (if negb (String.eqb summary "") && negb (String.eqb summary no_context_sentinel) then
     store_episode user_id session_id ("Session summary: " ++ substring 0 500 summary)%string
       [("type", JStr "session_summary")] High ;;;
     ret tt
   else ret tt) ;;;
  clear_session session_id.

(** The loop of [get_cross_session_context] that fills the dict
    [sessions] (in insertion order). Every row has a [session_id] column,
    so [ep.get("session_id", "unknown")] is [r_session ep]. *)
Fixpoint group_add (sid : option string) (ep : row) (sessions : list (option string * list row))
    : list (option string * list row) :=
  match sessions with
  | [] => [(sid, [ep])]
  | (sid', eps) :: sessions' =>
      if opt_string_eqb sid sid' then (sid', eps ++ [ep]) :: sessions'
      else (sid', eps) :: group_add sid ep sessions'
  end.

Definition group_by_session (episodes : list row) : list (option string * list row) :=
  fold_left (fun sessions ep => group_add (r_session ep) ep sessions) episodes [].

(** [MemoryManager.get_cross_session_context]: per session, its id, its
    episodes and the [recorded_at] of the first of them. *)
Definition get_cross_session_context (user_id : string) (topic : option string) (limit : nat)
    : M (list (option string * list row * option Z)) :=
  episodes <- recall_episodes user_id (str_or topic "") limit (Some 30%Z) ;;
  ret (map (fun '(sid, eps) =>
              (sid, eps, match eps with e :: _ => Some (r_recorded_at e) | [] => None end))
           (group_by_session episodes)).

(** The formatting part of [get_memory_context]. A missing [user_profile]
    ([{}]) has no key, which reads like a profile of empty lists. *)
Definition format_memory_context (context : bundle) : string :=
  let profile := match b_user_profile context with Some p => p | None => empty_profile end in
  let strategies := match b_effective_strategies context with Some s => s | None => [] end in
  let history := match b_relevant_history context with Some h => h | None => [] end in
  let parts :=
    (match p_learning_style profile with
     | [] => [] | ls => [("Learning Style: " ++ join_with ", " ls)%string] end) ++
    (match p_proficiencies profile with
     | [] => []
     | pr => [("Subject Proficiencies: "
                ++ join_with ", " (map (fun kv => fst kv ++ ": " ++ snd kv) pr))%string] end) ++
    (match p_interests profile with
     | [] => [] | it => [("Interests: " ++ join_with ", " (firstn 5 it))%string] end) ++
    (match p_challenges profile with
     | [] => [] | ch => [("Known Challenges: " ++ join_with ", " (firstn 3 ch))%string] end) ++
    (if py_truthy (b_current_topic context)
     then [("Current Topic: " ++ py_str (b_current_topic context))%string] else []) ++
    (match strategies with
     | [] => []
     | _ => [("Effective Teaching Approaches: "
               ++ join_with "; " (map s_description (firstn 3 strategies)))%string] end) ++
    (match history with
     | [] => []
     | _ => [("Relevant Past Interactions: "
               ++ join_with " | " (map (fun h => substring 0 100 (fst (fst h))) (firstn 3 history)))%string]
     end) in
  match parts with
  | [] => ""
  | _ => ("=== USER MEMORY CONTEXT ===" ++ String (ascii_of_nat 10) ""
           ++ join_lines parts ++ String (ascii_of_nat 10) "" ++ "=== END CONTEXT ===")%string
  end.


(** The dict [load_memory_context] returns; [user_profile = {}] is [None]. *)
Record memory_data : Type := mkMemoryData {
  md_memory_context : string;
  md_user_profile : option profile;
  md_effective_strategies : list strategy;
  md_current_topic : jval
}.



(** [save_interaction_memory] of [supervisor.py] *)
Definition save_interaction_memory (memory_available : bool)
    (user_id session_id user_message assistant_response : string)
    (topic : option string) (was_helpful : option bool)
    (extracted_facts : option (list (list (string * string)))) : M unit :=
  if memory_available then
    with_fresh_cache
      (catch (process_interaction user_id session_id user_message assistant_response
                topic was_helpful extracted_facts)
             (fun _ => ret tt))
  else ret tt.

End Memory2.

(** ** Readings of the spec used in the statements *)

(** The value a read of the persisted store yields, in the words of the
    spec: the [value] of the persisted record of the key if there is one
    (absent, i.e. [None]/[JNull], when it has no [value]), nothing
    else being looked at; absent when there is no record. *)
Definition stored_value (session_id key : string) (w : world) : exc jval :=
  match filter (fun r => String.eqb (r_id r) (wm_id session_id key)) (w_rows w) with
  | r :: _ =>
      match r_context r with
      | Serialized ctx => Ok (match dget ctx "value" with Some v => v | None => JNull end)
      | Unparsable _ => Exc JSONDecodeError
      end
  | [] => Ok JNull
  end.

(** A procedural row is kept by [get_effective_strategies] when its
    [success_rate] is at least [min_success_rate] and, for a given
    [context_type], its [procedure_type] is that type. *)
Definition strategy_kept (context_type : option string) (min_success_rate : Q) (r : row) : bool :=
  match r_context r with
  | Serialized ctx =>
      match get_num ctx "success_rate" 0 with
      | Ok sr => Qle_bool min_success_rate sr && type_matches context_type ctx
      | Exc _ => false
      end
  | Unparsable _ => false
  end.

(** The strategy record a kept row contributes. *)
Definition strategy_of_row (r : row) : strategy :=
  match r_context r with
  | Serialized ctx =>
      mkStrategy (r_content r)
        (match get_num ctx "success_rate" 0 with Ok q => q | Exc _ => 0 end)
        (match get_num ctx "use_count" 0 with Ok q => q | Exc _ => 0 end)
        (match dget ctx "procedure_type" with Some v => v | None => JStr "general" end)
  | Unparsable _ => mkStrategy (r_content r) 0 0 JNull
  end.

(** The [confidence] stored in a semantic row. *)
Definition confidence_of (r : row) : option Q :=
  match r_context r with
  | Serialized ctx => match dget ctx "confidence" with Some (JNum q) => Some q | _ => None end
  | Unparsable _ => None
  end.






(** ** Concrete stores *)

Definition empty_world : world := mkWorld [] [] (fun _ => false) false [] 0.

(** Five episodes of user "u" recorded at strictly increasing times, and an
    episode of another user. *)
Definition five_episodes_world : world :=
  mkWorld (map (fun i => mkRow ("e" ++ string_of_list_ascii [ascii_of_nat (48 + i)])
                           "u" Episodic (Some "s1") "User asked about: limits"
                           (Serialized [("topic", JStr "limits")]) Medium
                           (Z.of_nat (100 * i)) 0 0 1) [1; 2; 3; 4; 5]%nat
           ++ [mkRow "x1" "v" Episodic (Some "s9") "User asked about: vectors"
                 (Serialized []) Medium 1000 0 0 1])
          [] (fun _ => false) false [] 2000.

(** Two explanation strategies of user "u": success rate 0.9 used twice,
    success rate 0.65 used fifteen times. *)
Definition ranking_world : world :=
  mkWorld [mkRow "p1" "u" Procedural None "For fractions: socratic"
             (Serialized [("procedure_type", JStr "explanation");
                          ("success_rate", JNum (9#10)); ("use_count", JNum 2)]) High 0 0 0 1;
           mkRow "p2" "u" Procedural None "For fractions: example-based"
             (Serialized [("procedure_type", JStr "explanation");
                          ("success_rate", JNum (65#100)); ("use_count", JNum 15)]) Medium 0 0 0 1]
          [] (fun _ => false) false [] 0.

(** One episode and one strategy of user "u"; the semantic-memory calls
    fail. *)
Definition semantic_down_world : world :=
  mkWorld [mkRow "e1" "u" Episodic (Some "s1") "User asked about: fractions"
             (Serialized [("topic", JStr "fractions")]) Medium 0 0 0 1;
           mkRow "p1" "u" Procedural None "For fractions: socratic"
             (Serialized [("procedure_type", JStr "explanation");
                          ("success_rate", JNum 1); ("use_count", JNum 1)]) High 0 0 0 1]
          [] (fun k => mkind_eqb k Semantic) false [] 0.

(** User "u" has a well-formed and a legacy semantic row, and a
    well-formed and a legacy procedural row; the legacy rows' [context]
    is not JSON. *)
Definition legacy_world : world :=
  mkWorld [mkRow "f1" "u" Semantic None "physics"
             (Serialized [("category", JStr "interest"); ("confidence", JNum (4#5))]) High 0 0 0 1;
           mkRow "f0" "u" Semantic None "prefers diagrams"
             (Unparsable "{'category': 'learning_style'") High 0 0 0 1;
           mkRow "p1" "u" Procedural None "For fractions: socratic"
             (Serialized [("procedure_type", JStr "explanation");
                          ("success_rate", JNum (9#10)); ("use_count", JNum 3)]) High 0 0 0 1;
           mkRow "p0" "u" Procedural None "For algebra: analogy"
             (Unparsable "success_rate=0.8") High 0 0 0 1]
          [] (fun _ => false) false [] 0.

(** * Properties *)

(** ** Strings and [ILIKE] *)

Lemma list_ascii_of_string_app (a b : string) :
  list_ascii_of_string (a ++ b) = list_ascii_of_string a ++ list_ascii_of_string b.
Proof. induction a as [|c a IH]; simpl; [reflexivity | now rewrite IH]. Qed.

Lemma substring_0_prefix (n : nat) (s : string) :
  exists rest, list_ascii_of_string s = list_ascii_of_string (substring 0 n s) ++ rest.
Proof.
  revert n. induction s as [|c s IH]; intros [|n]; simpl.
  - exists []. reflexivity.
  - exists []. reflexivity.
  - exists (c :: list_ascii_of_string s). reflexivity.
  - destruct (IH n) as [rest Hr]. exists rest. now rewrite Hr.
Qed.

Lemma nil_in_suffixes (t : list ascii) : In [] (suffixes t).
Proof. induction t as [|c t IH]; simpl; auto. Qed.

Lemma self_in_suffixes (t : list ascii) : In t (suffixes t).
Proof. destruct t; simpl; auto. Qed.

Lemma like_match_pct_tail (u v : list ascii) :
  forallb (fun c => negb (Ascii.eqb c "\"%char)) u = true ->
  like_match (map postgrest_star u ++ ["%"%char]) (u ++ v) = true.
Proof.
  induction u as [|c u IH]; intros H.
  - cbn. apply existsb_exists. exists []. split; [apply nil_in_suffixes | reflexivity].
  - cbn [forallb] in H. apply andb_true_iff in H as [Hc Hu]. specialize (IH Hu).
    apply negb_true_iff in Hc.
    cbn [map app like_match].
    destruct (Ascii.eqb (postgrest_star c) "%"%char) eqn:Ep.
    + apply existsb_exists. exists (u ++ v). split; [right; apply self_in_suffixes | exact IH].
    + assert (Hpc : postgrest_star c = c).
      { unfold postgrest_star in *. destruct (Ascii.eqb c "*"%char); [|reflexivity].
        cbn in Ep. discriminate. }
      rewrite Hpc, Hc, Ascii.eqb_refl, orb_true_r, IH. reflexivity.
Qed.

(** A content matches the [ILIKE] pattern built from its own prefix when
    that prefix holds no backslash. *)
Lemma ilike_own_prefix (s : string) (n : nat) :
  no_backslash (substring 0 n s) = true -> ilike s (pct (substring 0 n s)) = true.
Proof.
  intros H. unfold ilike, pct. rewrite !list_ascii_of_string_app. cbn [list_ascii_of_string map app].
  rewrite map_app. cbn [map].
  change (postgrest_star "%"%char) with "%"%char. cbn [like_match].
  change (Ascii.eqb "%" "%") with true. cbv iota.
  apply existsb_exists. exists (list_ascii_of_string s).
  split; [apply self_in_suffixes |].
  destruct (substring_0_prefix n s) as [rest Hr]. rewrite Hr.
  apply like_match_pct_tail. exact H.
Qed.

Lemma prefix_str_lower (p s : string) :
  String.prefix p s = true -> String.prefix (str_lower p) (str_lower s) = true.
Proof.
  revert s. induction p as [|a p IH]; intros [|b s]; simpl; try easy.
  destruct (ascii_dec a b) as [->|]; [|easy].
  intro H. destruct (ascii_dec (ascii_lower b) (ascii_lower b)); [|congruence]. auto.
Qed.

Lemma contains_unfold (p s : string) :
  contains p s = String.prefix p s || match s with
                                      | EmptyString => false
                                      | String _ s' => contains p s'
                                      end.
Proof. destruct s; reflexivity. Qed.

Lemma contains_str_lower (p s : string) :
  contains p s = true -> contains (str_lower p) (str_lower s) = true.
Proof.
  induction s as [|c s IH]; intro H; rewrite contains_unfold in H;
    rewrite contains_unfold; apply orb_true_iff in H as [H|H]; apply orb_true_iff.
  - left. now apply prefix_str_lower.
  - discriminate.
  - left. now apply prefix_str_lower.
  - right. exact (IH H).
Qed.

(** ** The stable descending sort *)

Section SortFacts.
Variable A : Type.
Variable key : A -> Q.

Definition ranked (a b : A) : Prop := key b <= key a.

Lemma insert_desc_perm (x : A) (l : list A) : Permutation (insert_desc key x l) (x :: l).
Proof.
  induction l as [|y l IH]; simpl; [auto|].
  destruct (Qle_bool (key y) (key x)); [auto|].
  rewrite IH. apply perm_swap.
Qed.

Lemma sort_desc_perm (l : list A) : Permutation (sort_desc key l) l.
Proof.
  induction l as [|x l IH]; simpl; [auto|].
  rewrite insert_desc_perm. now apply perm_skip.
Qed.

Lemma insert_desc_hd (x y : A) (l : list A) :
  HdRel ranked y l -> ranked y x -> HdRel ranked y (insert_desc key x l).
Proof.
  intros H Hx. destruct l as [|z l]; simpl; [auto|].
  destruct (Qle_bool (key z) (key x)); constructor; [exact Hx|]. now inversion H.
Qed.

Lemma insert_desc_sorted (x : A) (l : list A) :
  Sorted ranked l -> Sorted ranked (insert_desc key x l).
Proof.
  induction l as [|y l IH]; simpl; intro Hs; [auto|].
  destruct (Qle_bool (key y) (key x)) eqn:E.
  - constructor; [exact Hs|]. constructor. now apply Qle_bool_iff.
  - apply Sorted_inv in Hs as [Hl Hh]. constructor; [auto|].
    apply insert_desc_hd; [exact Hh|]. unfold ranked.
    apply Qlt_le_weak, Qnot_le_lt. intro C. apply Qle_bool_iff in C. congruence.
Qed.

Lemma sort_desc_sorted (l : list A) : Sorted ranked (sort_desc key l).
Proof. induction l; simpl; [constructor | now apply insert_desc_sorted]. Qed.

End SortFacts.
Arguments ranked {A} key a b.
Arguments sort_desc_perm {A} key l.
Arguments sort_desc_sorted {A} key l.

Lemma filter_and {A : Type} (f g : A -> bool) (l : list A) :
  filter g (filter f l) = filter (fun x => f x && g x) l.
Proof.
  induction l as [|x l IH]; simpl; [reflexivity|].
  destruct (f x); simpl; [destruct (g x); simpl; now rewrite IH | exact IH].
Qed.

(** ** Monadic folds *)

Lemma foldM_raises {A B} (f : A -> B -> M A) (x : B) (l : list B) :
  In x l ->
  (forall acc w, exists e w', f acc x w = (Exc e, w')) ->
  forall acc w, exists e w', foldM f acc l w = (Exc e, w').
Proof.
  intros Hin Hx. induction l as [|y l IH]; [destruct Hin|].
  intros acc w. simpl. unfold bind.
  destruct Hin as [<-|Hin].
  - destruct (Hx acc w) as (e & w' & ->). eauto.
  - destruct (f acc y w) as [[a|e] w'].
    + apply IH; assumption.
    + eauto.
Qed.

(** ** Routing *)

Section Routing.
Import Supervisor.

Lemma str_lower_my_document : str_lower "my document" = "my document".
Proof. reflexivity. Qed.

(** C4. The route chosen by [supervisor_node] depends on the text of the
    last message alone: it is the first-match precedence chain document,
    presentation, visual, reverse-teaching (feynman), debate (advocate),
    default "tutor", over the lower-cased text. In particular a text that
    contains both "my document" and "make slides" is routed to "rag". *)
Theorem supervisor_node_precedence (st : agent_state) :
  next_step (supervisor_node st) = classify_spec (last_message (messages st)) /\
  (contains "my document" (last_message (messages st)) = true ->
   contains "make slides" (last_message (messages st)) = true ->
   next_step (supervisor_node st) = "rag").
Proof.
  assert (Heq : next_step (supervisor_node st) = classify_spec (last_message (messages st))).
  { unfold supervisor_node, classify_spec, scan. cbn [next_step].
    set (t := str_lower (last_message (messages st))).
    destruct (existsb (fun p => contains p t) rag_patterns); [reflexivity|].
    cbn [String.eqb Ascii.eqb Bool.eqb].
    destruct (existsb (fun p => contains p t) presentation_patterns); [reflexivity|].
    cbn [String.eqb Ascii.eqb Bool.eqb].
    destruct (existsb (fun p => contains p t) visual_patterns); [reflexivity|].
    cbn [String.eqb Ascii.eqb Bool.eqb].
    destruct (existsb (fun p => contains p t) feynman_patterns); [reflexivity|].
    cbn [String.eqb Ascii.eqb Bool.eqb].
    destruct (existsb (fun p => contains p t) advocate_patterns); reflexivity. }
  split; [exact Heq|].
  intros Hdoc _. rewrite Heq. unfold classify_spec.
  apply contains_str_lower in Hdoc. rewrite str_lower_my_document in Hdoc.
  unfold rag_patterns. cbn [existsb]. now rewrite Hdoc.
Qed.

End Routing.

Lemma supervisor_node_precedence_witness :
  Supervisor.next_step
    (Supervisor.supervisor_node
       (Supervisor.mkState [Supervisor.MsgDict [("role", "user");
                                                ("content", "Can you make slides from my document?")]] ""))
  = "rag".
Proof.
  apply (proj2 (supervisor_node_precedence
                  (Supervisor.mkState [Supervisor.MsgDict [("role", "user");
                                        ("content", "Can you make slides from my document?")]] "")));
    vm_compute; reflexivity.
Defined.

(** ** Working memory *)

Lemma mkind_eqb_true (a b : mkind) : mkind_eqb a b = true <-> a = b.
Proof. destruct a, b; simpl; split; congruence. Qed.

Lemma opt_str_eqb_true (o : option string) (s : string) :
  opt_str_eqb o s = true <-> o = Some s.
Proof.
  destruct o as [s'|]; simpl; [|split; congruence].
  rewrite String.eqb_eq. split; congruence.
Qed.

(** C9. [clear_session] never raises, empties the cache, and removes from
    the store only rows of the working kind whose [session_id] is the
    session's: every row of another kind (episodic rows of the same session
    included) is still there, whether or not the delete call fails; when
    the store is reachable all working rows of the session are gone. *)
Theorem clear_session_frame (session_id : string) (w : world) :
  fst (clear_session session_id w) = Ok tt /\
  w_cache (snd (clear_session session_id w)) = [] /\
  (forall r, In r (w_rows w) -> r_kind r <> Working ->
             In r (w_rows (snd (clear_session session_id w)))) /\
  (forall r, In r (w_rows (snd (clear_session session_id w))) -> In r (w_rows w)) /\
  (forall r, In r (w_rows w) -> ~ In r (w_rows (snd (clear_session session_id w))) ->
             r_kind r = Working /\ r_session r = Some session_id) /\
  (w_down w Working = false ->
   forall r, In r (w_rows (snd (clear_session session_id w))) ->
             ~ (r_kind r = Working /\ r_session r = Some session_id)).
Proof.
  unfold clear_session, bind, catch, delete, ret, set_cache, set_rows. cbn.
  destruct (w_down w Working) eqn:Hd; cbn;
    (split; [reflexivity | split; [reflexivity | split; [| split; [| split]]]]).
  - tauto.
  - tauto.
  - intros r Hin Hout. contradiction.
  - intros H. discriminate.
  - intros r Hin Hk. apply filter_In. split; [exact Hin|].
    destruct (mkind_eqb (r_kind r) Working) eqn:E; [|reflexivity].
    apply mkind_eqb_true in E. contradiction.
  - intros r Hin. now apply filter_In in Hin as [Hin _].
  - intros r Hin Hout. destruct (mkind_eqb (r_kind r) Working
                                && opt_str_eqb (r_session r) session_id) eqn:E.
    + apply andb_true_iff in E as [E1 E2].
      apply mkind_eqb_true in E1; apply opt_str_eqb_true in E2. tauto.
    + exfalso. apply Hout, filter_In. now rewrite E.
  - intros _ r Hin [Hk Hs]. apply filter_In in Hin as [_ Hin].
    apply mkind_eqb_true in Hk. apply opt_str_eqb_true in Hs.
    now rewrite Hk, Hs in Hin.
Qed.

Lemma clear_session_frame_witness :
  w_down (mkWorld [mkRow "wm:s1:current_topic" "u" Working (Some "s1") "current_topic"
                (Serialized [("value", JStr "fractions"); ("ttl_minutes", JNum 120)]) Low 0 0 0 1;
              mkRow "e1" "u" Episodic (Some "s1") "User asked about: fractions"
                (Serialized [("topic", JStr "fractions")]) Medium 0 0 0 1]
             [] (fun _ => false) false [("current_topic", (JStr "fractions", 7200%Z))] 0) Working = false /\
  forall r, In r (w_rows (snd (clear_session "s1" (mkWorld [mkRow "wm:s1:current_topic" "u" Working (Some "s1") "current_topic"
                (Serialized [("value", JStr "fractions"); ("ttl_minutes", JNum 120)]) Low 0 0 0 1;
              mkRow "e1" "u" Episodic (Some "s1") "User asked about: fractions"
                (Serialized [("topic", JStr "fractions")]) Medium 0 0 0 1]
             [] (fun _ => false) false [("current_topic", (JStr "fractions", 7200%Z))] 0)))) ->
    ~ (r_kind r = Working /\ r_session r = Some "s1").
Proof.
  split; [reflexivity|].
  apply (proj2 (proj2 (proj2 (proj2 (proj2 (clear_session_frame "s1" (mkWorld [mkRow "wm:s1:current_topic" "u" Working (Some "s1") "current_topic"
                (Serialized [("value", JStr "fractions"); ("ttl_minutes", JNum 120)]) Low 0 0 0 1;
              mkRow "e1" "u" Episodic (Some "s1") "User asked about: fractions"
                (Serialized [("topic", JStr "fractions")]) Medium 0 0 0 1]
             [] (fun _ => false) false [("current_topic", (JStr "fractions", 7200%Z))] 0))))))).
  reflexivity.
Defined.

Lemma dget_not_in {V : Type} (d : list (string * V)) (k : string) :
  ~ In k (map fst d) -> dget d k = None.
Proof.
  induction d as [|[k' v] d IH]; simpl; intro H; [reflexivity|].
  destruct (String.eqb k k') eqn:E.
  - apply String.eqb_eq in E. subst. tauto.
  - apply IH. tauto.
Qed.

Lemma dget_dict_del {V : Type} (d : list (string * V)) (k : string) :
  NoDup (map fst d) -> dget (dict_del d k) k = None.
Proof.
  induction d as [|[k' v] d IH]; simpl; intro Hnd; [reflexivity|].
  inversion Hnd as [|? ? Hnot Hnd']; subst.
  destruct (String.eqb k k') eqn:E.
  - apply String.eqb_eq in E. subst. now apply dget_not_in.
  - simpl. rewrite E. now apply IH.
Qed.

(** C8. [get_from_context] returns the cached value when the key is
    cached and its expiry lies strictly in the future ([now < expires]);
    a cached entry whose expiry has come is evicted and the read falls
    through to the store; on a miss or fall-through the result is the
    persisted record's [value] (its [ttl_minutes], its timestamps and the
    clock are not consulted), absent when there is no record. *)
Theorem get_from_context_read_through (session_id key : string) (w : world) :
  w_down w Working = false ->
  NoDup (map fst (w_cache w)) ->
  (forall v expires, dget (w_cache w) key = Some (v, expires) -> (w_now w < expires)%Z ->
     get_from_context session_id key w = (Ok v, w)) /\
  (forall v expires, dget (w_cache w) key = Some (v, expires) -> (expires <= w_now w)%Z ->
     exists w', get_from_context session_id key w = (stored_value session_id key w, w') /\
                w' = set_cache w (dict_del (w_cache w) key) /\
                dget (w_cache w') key = None) /\
  (dget (w_cache w) key = None ->
     get_from_context session_id key w = (stored_value session_id key w, w)).
Proof.
  intros Hd Hnd.
  assert (Hdb : forall w0, w_down w0 Working = false ->
     (rs <- select_any Working (fun r => String.eqb (r_id r) (wm_id session_id key)) ;;
      match rs with
      | r :: _ => context <- lift (json_loads (r_context r)) ;;
                  ret (match dget context "value" with Some v => v | None => JNull end)
      | [] => ret JNull
      end) w0 = (stored_value session_id key w0, w0)).
  { intros w0 Hd0. unfold bind, select_any, stored_value. rewrite Hd0.
    destruct (filter _ (w_rows w0)) as [|r rs]; [reflexivity|].
    unfold lift, json_loads. destruct (r_context r); reflexivity. }
  split; [|split].
  - intros v e Hc Hlt. unfold get_from_context. rewrite Hc.
    apply Z.ltb_lt in Hlt. now rewrite Hlt.
  - intros v e Hc Hle. unfold get_from_context. rewrite Hc.
    assert (Hge : Z.ltb (w_now w) e = false) by (apply Z.ltb_ge; exact Hle).
    rewrite Hge. eexists. split; [exact (Hdb (set_cache w (dict_del (w_cache w) key)) Hd)|].
    split; [reflexivity|].
    simpl. now apply dget_dict_del.
  - intros Hc. unfold get_from_context. rewrite Hc. apply Hdb. exact Hd.
Qed.

Lemma get_from_context_read_through_witness :
  exists w', get_from_context "s1" "current_topic"
    (mkWorld [mkRow "wm:s1:current_topic" "u" Working (Some "s1") "current_topic"
                (Serialized [("value", JStr "fractions"); ("ttl_minutes", JNum 120)]) Low 0 0 0 1]
             [] (fun _ => false) false [("current_topic", (JStr "fractions", 7200%Z))] 8000)
    = (Ok (JStr "fractions"), w').
Proof.
  destruct (proj1 (proj2 (get_from_context_read_through "s1" "current_topic"
    (mkWorld [mkRow "wm:s1:current_topic" "u" Working (Some "s1") "current_topic"
                (Serialized [("value", JStr "fractions"); ("ttl_minutes", JNum 120)]) Low 0 0 0 1]
             [] (fun _ => false) false [("current_topic", (JStr "fractions", 7200%Z))] 8000)
    eq_refl ltac:(repeat constructor; simpl; tauto)))
    (JStr "fractions") 7200%Z eq_refl ltac:(simpl; lia)) as [w' [H _]].
  exists w'. rewrite H. reflexivity.
Defined.

(** ** The context bundle *)

(** C1, amended. [build_context_for_query] does not isolate the failure of
    a sub-fetch: when the profile is requested and the semantic-memory
    fetch raises, the exception propagates out of [build_context_for_query]
    and no bundle is returned, whatever the other kinds would return. *)
Theorem build_context_semantic_failure_propagates
    (isoformat : Z -> string) (user_id session_id query : string)
    (include_history include_strategies : bool) (max_episodes : nat) (w : world) :
  w_down w Semantic = true ->
  fst (build_context_for_query isoformat user_id session_id query true
         include_history include_strategies max_episodes w) = Exc StoreError.
Proof.
  intros Hd. unfold build_context_for_query, get_user_profile, bind, get_now, select.
  cbn. now rewrite Hd.
Qed.

Lemma build_context_semantic_failure_propagates_witness :
  fst (build_context_for_query (fun _ => "2026-10-19T00:00:00") "u" "s1" "what is a fraction?"
         true true true 5
         semantic_down_world)
  = Exc StoreError.
Proof.
  apply build_context_semantic_failure_propagates. reflexivity.
Defined.

(** C1, counterexample: the semantic fetch raises while the episodic and
    procedural fetches succeed; the call raises instead of returning a
    bundle with an empty profile. *)
Lemma build_context_partial_failure_counterexample :
  (exists eps, fst (recall_episodes "u" "what is a fraction?" 5 None semantic_down_world) = Ok eps
               /\ eps <> []) /\
  (exists ss, fst (get_effective_strategies "u" None (6#10) semantic_down_world) = Ok ss
              /\ ss <> []) /\
  ~ (exists b, fst (build_context_for_query (fun _ => "2026-10-19T00:00:00") "u" "s1"
                     "what is a fraction?" true true true 5 semantic_down_world) = Ok b).
Proof.
  split; [|split].
  - eexists. split; [reflexivity | discriminate].
  - eexists. split; [reflexivity | discriminate].
  - intros [b Hb]. vm_compute in Hb. discriminate.
Qed.

(** ** Malformed stored context *)

(** C7, amended. Neither [get_user_profile] nor [get_effective_strategies]
    skips a row whose [context] is not JSON: if one of the rows of the user
    of the kind the call reads has such a context, the call raises. *)
Theorem unparsable_context_raises (user_id raw : string) (r : row) (w : world) :
  In r (w_rows w) -> r_user r = user_id -> r_context r = Unparsable raw ->
  (r_kind r = Semantic -> exists e, fst (get_user_profile user_id w) = Exc e) /\
  (r_kind r = Procedural ->
     forall context_type min_success_rate,
       exists e, fst (get_effective_strategies user_id context_type min_success_rate w) = Exc e).
Proof.
  intros Hin Hu Hc. split.
  - intros Hk. unfold get_user_profile, bind, select.
    destruct (w_down w Semantic); [eexists; reflexivity|].
    match goal with
    | |- context [foldM ?f _ ?l _] => edestruct (foldM_raises f r l) as (e & w' & He)
    end.
    + apply filter_In. split; [exact Hin|]. cbv beta. rewrite Hk, Hu. simpl. apply String.eqb_refl.
    + intros acc w0. unfold bind, lift. rewrite Hc. simpl. eexists; eexists; reflexivity.
    + rewrite He. eexists; reflexivity.
  - intros Hk ct m. unfold get_effective_strategies, bind at 1, select.
    destruct (w_down w Procedural); [eexists; reflexivity|].
    match goal with
    | |- context [foldM ?f _ ?l] => edestruct (foldM_raises f r l) as (e & w' & He)
    end.
    + apply filter_In. split; [exact Hin|]. cbv beta. rewrite Hk, Hu. simpl. apply String.eqb_refl.
    + intros acc w0. unfold strategies_step, bind, lift. rewrite Hc. simpl. eexists; eexists; reflexivity.
    + unfold bind. rewrite He. eexists; reflexivity.
Qed.

Lemma unparsable_context_raises_witness :
  (exists e, fst (get_user_profile "u" legacy_world) = Exc e) /\
  (exists e, fst (get_effective_strategies "u" None (6#10) legacy_world) = Exc e).
Proof.
  split.
  - apply (proj1 (unparsable_context_raises "u" "{'category': 'learning_style'"
             (mkRow "f0" "u" Semantic None "prefers diagrams"
                (Unparsable "{'category': 'learning_style'") High 0 0 0 1)
             legacy_world ltac:(simpl; tauto) eq_refl eq_refl)).
    reflexivity.
  - apply (proj2 (unparsable_context_raises "u" "success_rate=0.8"
             (mkRow "p0" "u" Procedural None "For algebra: analogy"
                (Unparsable "success_rate=0.8") High 0 0 0 1)
             legacy_world ltac:(simpl; tauto) eq_refl eq_refl)).
    reflexivity.
Defined.

(** C7, counterexample: one of the two semantic rows and one of the two
    procedural rows of user "u" is not JSON; both aggregations raise
    instead of returning the aggregate of the well-formed row. *)
Lemma unparsable_context_counterexample :
  fst (get_user_profile "u" legacy_world) = Exc JSONDecodeError /\
  fst (get_effective_strategies "u" None (6#10) legacy_world) = Exc JSONDecodeError.
Proof. split; vm_compute; reflexivity. Qed.

(** ** Strategy ranking *)

Lemma strategies_step_ok (context_type : option string) (min_success_rate : Q)
    (acc : list strategy) (r : row) (w w' : world) (res : list strategy) :
  strategies_step context_type min_success_rate acc r w = (Ok res, w') ->
  w' = w /\
  res = if strategy_kept context_type min_success_rate r then acc ++ [strategy_of_row r] else acc.
Proof.
  unfold strategies_step, strategy_kept, strategy_of_row, bind, lift, ret.
  destruct (r_context r) as [ctx|raw]; cbn; [|discriminate].
  destruct (get_num ctx "success_rate" 0) as [sr|e]; cbn; [|discriminate].
  destruct (Qle_bool min_success_rate sr); cbn; [|intros H; injection H; auto].
  destruct (type_matches context_type ctx); cbn; [|intros H; injection H; auto].
  destruct (get_num ctx "use_count" 0) as [uc|e]; cbn; [|discriminate].
  intros H. injection H. auto.
Qed.

Lemma foldM_strategies (context_type : option string) (min_success_rate : Q)
    (rs : list row) : forall acc w w' res,
  foldM (strategies_step context_type min_success_rate) acc rs w = (Ok res, w') ->
  w' = w /\ res = acc ++ map strategy_of_row (filter (strategy_kept context_type min_success_rate) rs).
Proof.
  induction rs as [|r rs IH]; intros acc w w' res; simpl.
  - intros H. injection H. intros -> ->. now rewrite app_nil_r.
  - unfold bind. destruct (strategies_step context_type min_success_rate acc r w)
      as [[a|e] w1] eqn:Hs; [|discriminate].
    apply strategies_step_ok in Hs as [-> ->].
    intros H. apply IH in H as [-> ->]. split; [reflexivity|].
    destruct (strategy_kept context_type min_success_rate r); simpl;
      [now rewrite <- app_assoc | reflexivity].
Qed.

(** C5. When [get_effective_strategies] returns, it has not touched the
    store and its result is the first ten of the kept strategies (rows of
    the user with [success_rate >= min_success_rate] and, if
    [context_type] is given, that [procedure_type]) ranked in descending
    order of [success_rate * min(use_count, 10)]. A strategy with success
    rate 0.65 used 15 times (score 6.5) ranks before one with success rate
    0.9 used twice (score 1.8). *)
Theorem get_effective_strategies_ranking :
  (forall user_id context_type min_success_rate w w' res,
     get_effective_strategies user_id context_type min_success_rate w = (Ok res, w') ->
     w' = w /\
     exists ranked_all,
       Permutation ranked_all
         (map strategy_of_row
            (filter (fun r => mkind_eqb (r_kind r) Procedural && String.eqb (r_user r) user_id
                              && strategy_kept context_type min_success_rate r) (w_rows w))) /\
       Sorted (ranked strategy_score) ranked_all /\
       res = firstn 10 ranked_all) /\
  get_effective_strategies "u" None (6#10) ranking_world =
    (Ok [mkStrategy "For fractions: example-based" (65#100) 15 (JStr "explanation");
         mkStrategy "For fractions: socratic" (9#10) 2 (JStr "explanation")], ranking_world).
Proof.
  split; [|vm_compute; reflexivity].
  intros user_id ct m w w' res.
  unfold get_effective_strategies, bind at 1, select.
  destruct (w_down w Procedural); [discriminate|].
  unfold bind.
  destruct (foldM (strategies_step ct m) [] _ w) as [[kept|e] w1] eqn:Hf; [|discriminate].
  apply foldM_strategies in Hf as [-> ->]. cbn.
  intros H. injection H. intros <- <-. split; [reflexivity|].
  exists (sort_desc strategy_score
            (map strategy_of_row (filter (strategy_kept ct m)
               (filter (fun r => mkind_eqb (r_kind r) Procedural && String.eqb (r_user r) user_id)
                  (w_rows w))))).
  split; [|split; [apply sort_desc_sorted | reflexivity]].
  rewrite sort_desc_perm. apply Permutation_refl', f_equal.
  apply filter_and.
Qed.

Lemma get_effective_strategies_ranking_witness :
  ranking_world = ranking_world /\
  exists ranked_all,
    Permutation ranked_all
      (map strategy_of_row
         (filter (fun r => mkind_eqb (r_kind r) Procedural && String.eqb (r_user r) "u"
                           && strategy_kept None (6#10) r) (w_rows ranking_world))) /\
    Sorted (ranked strategy_score) ranked_all /\
    [mkStrategy "For fractions: example-based" (65#100) 15 (JStr "explanation");
     mkStrategy "For fractions: socratic" (9#10) 2 (JStr "explanation")] = firstn 10 ranked_all.
Proof.
  apply (proj1 get_effective_strategies_ranking "u" None (6#10) ranking_world ranking_world).
  vm_compute. reflexivity.
Defined.

(** ** Episode recall *)

Lemma add_access_0 (r : row) : add_access 0 r = r.
Proof. destruct r. unfold add_access. cbn. now rewrite Z.add_0_r. Qed.

Lemma r_id_bump_access (i : string) (r : row) : r_id (bump_access i r) = r_id r.
Proof. unfold bump_access. destruct (String.eqb (r_id r) i); reflexivity. Qed.

Lemma update_access_up (i : string) (w : world) :
  w_down w Episodic = false ->
  update_access i w = (Ok tt, set_rows w (map (bump_access i) (w_rows w))).
Proof.
  intros Hd. unfold update_access, catch, bind, rpc_increment_access_count, raise, ret.
  rewrite Hd. reflexivity.
Qed.

(** Every call [_update_access(id)] of the loop raises the [access_count]
    of the rows with that [id] by one. *)
Lemma mapM_update_access (l : list row) (w : world) :
  w_down w Episodic = false ->
  mapM_ (fun r => update_access (r_id r)) l w
  = (Ok tt, set_rows w (map (fun r => add_access (Z.of_nat (count_occ string_dec (map r_id l) (r_id r))) r)
                            (w_rows w))).
Proof.
  revert w. induction l as [|x l IH]; intros w Hd.
  - cbn [mapM_ map count_occ Z.of_nat]. unfold ret. f_equal.
    rewrite (map_ext _ (fun r => r)) by apply add_access_0. rewrite map_id.
    destruct w; reflexivity.
  - cbn [mapM_]. unfold bind at 1. rewrite (update_access_up _ _ Hd).
    rewrite IH by exact Hd. unfold set_rows. cbn [w_rows w_messages w_down
      w_msgs_down w_cache w_now].
    rewrite map_map. erewrite map_ext; [reflexivity|]. intros r. cbv beta.
    rewrite r_id_bump_access. cbn [map count_occ]. unfold bump_access.
    destruct (String.eqb (r_id r) (r_id x)) eqn:E;
      destruct (string_dec (r_id x) (r_id r)) as [Ex|Ex].
    + unfold add_access. cbn. f_equal. lia.
    + apply String.eqb_eq in E. congruence.
    + apply String.eqb_neq in E. congruence.
    + reflexivity.
Qed.

(** With a cutoff that does not overflow, the whole call. *)
Lemma recall_episodes_up (user_id query : string) (limit : nat) (days : option Z)
    (cutoff : option Z) (w : world) :
  w_down w Episodic = false ->
  recall_cutoff days (w_now w) = Ok cutoff ->
  let data := firstn limit (sort_desc (fun r => inject_Z (r_recorded_at r))
                              (filter (fun r => mkind_eqb (r_kind r) Episodic
                                                && (String.eqb (r_user r) user_id
                                                    && in_time_range cutoff r))
                                      (w_rows w))) in
  recall_episodes user_id query limit days w
  = (Ok data,
     set_rows w (map (fun r => add_access (Z.of_nat (count_occ string_dec (map r_id data) (r_id r))) r)
                     (w_rows w))).
Proof.
  intros Hd Hc data. unfold recall_episodes, bind, get_now, lift. rewrite Hc.
  unfold select. rewrite Hd. cbv zeta. fold data.
  rewrite (mapM_update_access data w Hd). reflexivity.
Qed.

Lemma recall_cutoff_spec (days : option Z) (now : Z) :
  (forall d, days = Some d -> d <> 0%Z ->
     (Z.abs d <= 999999999)%Z /\ datetime_ok (now - d * 86400) = true) ->
  exists cutoff, recall_cutoff days now = Ok cutoff /\
    forall r, in_time_range cutoff r
              = match days with
                | Some d => Z.eqb d 0 || Z.leb (now - d * 86400) (r_recorded_at r)
                | None => true
                end.
Proof.
  intros H. destruct days as [d|].
  - destruct (Z.eqb d 0) eqn:E.
    + exists None. cbn [recall_cutoff]. rewrite E. split; reflexivity.
    + apply Z.eqb_neq in E as E'. destruct (H d eq_refl E') as [Ha Hdt].
      assert (Ht : timedelta_ok (d * 86400) = true).
      { unfold timedelta_ok. apply andb_true_iff. split; [apply Z.leb_le | apply Z.ltb_lt]; lia. }
      exists (Some (now - d * 86400)%Z). cbn [recall_cutoff]. rewrite E.
      unfold dt_sub. rewrite Ht, Hdt. split; reflexivity.
  - exists None. split; reflexivity.
Qed.

(** C6. [recall_episodes] ignores [query]. When [time_range_days] is
    truthy and [datetime.utcnow() - timedelta(days=time_range_days)]
    overflows, it raises [OverflowError] before reading the store.
    Otherwise, when the store answers, it returns the first [limit] of the
    user's episodic rows (restricted to [recorded_at >= now -
    time_range_days] when [time_range_days] is given and non-zero), ranked
    in descending order of [recorded_at]; its only effect on the store is
    to raise the [access_count] of every row by the number of returned
    rows with its id (by one for a returned row, ids being the primary
    key, and [last_accessed] is never written); when the
    store fails it raises. Of five episodes recorded at increasing times,
    [limit = 3] returns the three most recent, newest first. *)
Theorem recall_episodes_recency :
  (forall user_id query query' limit time_range_days w,
     recall_episodes user_id query' limit time_range_days w
       = recall_episodes user_id query limit time_range_days w) /\
  (forall user_id query limit d w,
     d <> 0%Z ->
     (999999999 < Z.abs d)%Z \/ datetime_ok (w_now w - d * 86400) = false ->
     recall_episodes user_id query limit (Some d) w = (Exc OverflowError, w)) /\
  (forall user_id query limit time_range_days w,
     (forall d, time_range_days = Some d -> d <> 0%Z ->
        (Z.abs d <= 999999999)%Z /\ datetime_ok (w_now w - d * 86400) = true) ->
     (w_down w Episodic = true ->
      recall_episodes user_id query limit time_range_days w = (Exc StoreError, w)) /\
     (w_down w Episodic = false ->
      exists ranked_all,
        Permutation ranked_all
          (filter (fun r => mkind_eqb (r_kind r) Episodic
                            && (String.eqb (r_user r) user_id
                                && match time_range_days with
                                   | Some d => Z.eqb d 0
                                               || Z.leb (w_now w - d * 86400) (r_recorded_at r)
                                   | None => true
                                   end)) (w_rows w)) /\
        Sorted (ranked (fun r => inject_Z (r_recorded_at r))) ranked_all /\
        recall_episodes user_id query limit time_range_days w
        = (Ok (firstn limit ranked_all),
           set_rows w (map (fun r => add_access (Z.of_nat (count_occ string_dec
                                       (map r_id (firstn limit ranked_all)) (r_id r))) r)
                           (w_rows w))))) /\
  (exists eps, fst (recall_episodes "u" "derivatives" 3 None five_episodes_world) = Ok eps /\
               map r_id eps = ["e5"; "e4"; "e3"] /\
               map r_recorded_at eps = [500%Z; 400%Z; 300%Z]).
Proof.
  split; [|split; [|split]].
  - reflexivity.
  - intros user_id query limit d w Hd0 Hov.
    unfold recall_episodes, bind, get_now, lift, recall_cutoff.
    apply Z.eqb_neq in Hd0. rewrite Hd0. unfold dt_sub.
    replace (timedelta_ok (d * 86400) && datetime_ok (w_now w - d * 86400)) with false;
      [reflexivity|].
    destruct Hov as [Ha|Hdt].
    + unfold timedelta_ok. symmetry. apply andb_false_iff. left. apply andb_false_iff.
      destruct (Z.abs_spec d) as [[Hs Habs]|[Hs Habs]]; rewrite Habs in Ha.
      * right. apply Z.ltb_ge. lia.
      * left. apply Z.leb_gt. lia.
    + rewrite Hdt. symmetry. apply andb_false_r.
  - intros user_id query limit trd w Hok.
    destruct (recall_cutoff_spec trd (w_now w) Hok) as (cutoff & Hc & Hin).
    split.
    + intros Hd. unfold recall_episodes, bind, get_now, lift. rewrite Hc.
      unfold select. rewrite Hd. reflexivity.
    + intros Hd.
      set (sel := filter _ (w_rows w)).
      exists (sort_desc (fun r => inject_Z (r_recorded_at r)) sel).
      split; [apply sort_desc_perm|]. split; [apply sort_desc_sorted|].
      rewrite (recall_episodes_up user_id query limit trd cutoff w Hd Hc).
      assert (Hsel : filter (fun r => mkind_eqb (r_kind r) Episodic
                                      && (String.eqb (r_user r) user_id && in_time_range cutoff r))
                            (w_rows w) = sel).
      { unfold sel. apply filter_ext. intros r. now rewrite Hin. }
      cbv zeta. rewrite Hsel. reflexivity.
  - eexists. split; [reflexivity | split; vm_compute; reflexivity].
Qed.

Lemma recall_episodes_recency_witness :
  exists ranked_all,
    Permutation ranked_all
      (filter (fun r => mkind_eqb (r_kind r) Episodic
                        && (String.eqb (r_user r) "u" && true))
              (w_rows five_episodes_world)) /\
    Sorted (ranked (fun r => inject_Z (r_recorded_at r))) ranked_all /\
    recall_episodes "u" "derivatives" 3 None five_episodes_world
    = (Ok (firstn 3 ranked_all),
       set_rows five_episodes_world
         (map (fun r => add_access (Z.of_nat (count_occ string_dec
                          (map r_id (firstn 3 ranked_all)) (r_id r))) r)
              (w_rows five_episodes_world))).
Proof.
  apply (proj2 (proj1 (proj2 (proj2 recall_episodes_recency)) "u" "derivatives" 3%nat None
                  five_episodes_world (fun d H _ => ltac:(discriminate H)))).
  reflexivity.
Defined.

(** ** Semantic facts *)

Lemma Forall2_map_self {A : Type} (P : A -> A -> Prop) (f : A -> A) (l : list A) :
  (forall x, In x l -> P x (f x)) -> Forall2 P l (map f l).
Proof.
  induction l as [|x l IH]; simpl; intro H; constructor; auto.
Qed.

(** C10. On the deduplication path of [store_fact] (an existing semantic
    row of the user matches the new fact's prefix pattern), the rows keep
    their [id], [user_id], [memory_type], [session_id], [content],
    [importance], [recorded_at], [access_count] and [decay_factor]; only
    rows carrying the matched row's [id] change at all (in [context] and
    [last_accessed]); the id returned is the matched row's id. *)
Theorem store_fact_dedup_frame (hash16 : string -> string) (isoformat : Z -> string)
    (user_id category fact : string) (confidence : Q) (source_session : option string)
    (w w' : world) (e : row) (rest : list row) (res : string) :
  filter (fun r => mkind_eqb (r_kind r) Semantic
                   && (String.eqb (r_user r) user_id
                       && ilike (r_content r) (pct (substring 0 30 fact)))) (w_rows w) = e :: rest ->
  store_fact hash16 isoformat user_id category fact confidence source_session w = (Ok res, w') ->
  res = r_id e /\
  Forall2 (fun r r' => r_id r' = r_id r /\ r_user r' = r_user r /\ r_kind r' = r_kind r /\
                       r_session r' = r_session r /\ r_content r' = r_content r /\
                       r_importance r' = r_importance r /\ r_recorded_at r' = r_recorded_at r /\
                       r_access_count r' = r_access_count r /\ r_decay r' = r_decay r /\
                       (r_id r <> r_id e -> r' = r))
          (w_rows w) (w_rows w').
Proof.
  intros Hsel. unfold store_fact, bind, select, get_now.
  destruct (w_down w Semantic) eqn:Hd; [discriminate|].
  cbn beta. rewrite Hsel. unfold update_by_id, ret. rewrite Hd.
  intros H. injection H. intros <- <-. split; [reflexivity|].
  apply Forall2_map_self. intros r _.
  destruct (String.eqb (r_id r) (r_id e)) eqn:E; cbn.
  - apply String.eqb_eq in E. repeat split; try reflexivity. intros C. contradiction.
  - repeat split; reflexivity.
Qed.

Lemma store_fact_dedup_frame_witness :
  "f1" = "f1" /\
  Forall2 (fun r r' => r_id r' = r_id r /\ r_user r' = r_user r /\ r_kind r' = r_kind r /\
                       r_session r' = r_session r /\ r_content r' = r_content r /\
                       r_importance r' = r_importance r /\ r_recorded_at r' = r_recorded_at r /\
                       r_access_count r' = r_access_count r /\ r_decay r' = r_decay r /\
                       (r_id r <> "f1" -> r' = r))
          (w_rows legacy_world)
          (w_rows (snd (store_fact (fun s => s) (fun _ => "t") "u" "interest" "physics" (4#5) None
                          legacy_world))).
Proof.
  apply (store_fact_dedup_frame (fun s => s) (fun _ => "t") "u" "interest" "physics" (4#5) None
           legacy_world
           (snd (store_fact (fun s => s) (fun _ => "t") "u" "interest" "physics" (4#5) None
                   legacy_world))
           (mkRow "f1" "u" Semantic None "physics"
              (Serialized [("category", JStr "interest"); ("confidence", JNum (4#5))]) High 0 0 0 1)
           [] "f1"); vm_compute; reflexivity.
Defined.

(** C2, counterexample: the first call stores confidence 0.95, the second
    (default confidence 0.8) leaves one record whose confidence is
    min(0.8 + 0.1, 1.0) = 0.9, not min(0.95 + 0.1, 1.0) = 1.0. And a fact
    with a backslash, LIKE's escape character, is not found again: for
    "Uses \frac for fractions" the second call (0.5) inserts a row with
    the id of the first, the insert fails and is swallowed, and the one
    record keeps confidence 0.8 instead of min(0.8 + 0.1, 1.0) = 0.9. *)
Lemma store_fact_twice_counterexample :
  map confidence_of
      (w_rows (snd (store_fact (fun s => s) (fun _ => "t") "u" "interest" "physics" (19#20) None
                      empty_world)))
    = [Some (19#20)] /\
  map confidence_of
      (w_rows (snd ((store_fact (fun s => s) (fun _ => "t") "u" "interest" "physics" (19#20) None
                     ;;; store_fact (fun s => s) (fun _ => "t") "u" "interest" "physics" (4#5) None)
                    empty_world)))
    = [Some (Qmin ((4#5) + (1#10)) 1)] /\
  ~ (Qmin ((4#5) + (1#10)) 1 == Qmin ((19#20) + (1#10)) 1) /\
  map confidence_of
      (w_rows (snd ((store_fact (fun s => s) (fun _ => "t") "u" "notation"
                       "Uses \frac for fractions" (4#5) None
                     ;;; store_fact (fun s => s) (fun _ => "t") "u" "notation"
                           "Uses \frac for fractions" (1#2) None)
                    empty_world)))
    = [Some (4#5)] /\
  ~ ((4#5) == Qmin ((4#5) + (1#10)) 1).
Proof.
  split; [reflexivity|]. split; [reflexivity|].
  split; [vm_compute; discriminate|]. split; [vm_compute; reflexivity|].
  vm_compute. discriminate.
Qed.

Lemma filter_single {A : Type} (f : A -> bool) (x : A) :
  filter f [x] = if f x then [x] else [].
Proof. reflexivity. Qed.

Lemma map_update_fresh (i : string) (patch : row -> row) (rs : list row) :
  forallb (fun r => negb (String.eqb (r_id r) i)) rs = true ->
  map (fun r => if String.eqb (r_id r) i then patch r else r) rs = rs.
Proof.
  induction rs as [|r rs IH]; simpl; [reflexivity|].
  intros H. apply andb_true_iff in H as [H1 H2].
  destruct (String.eqb (r_id r) i); [discriminate|]. now rewrite IH.
Qed.

Lemma forallb_negb_existsb {A : Type} (f : A -> bool) (l : list A) :
  forallb (fun x => negb (f x)) l = true -> existsb f l = false.
Proof.
  induction l as [|x l IH]; simpl; [reflexivity|].
  intros H. apply andb_true_iff in H as [H1 H2].
  destruct (f x); [discriminate|]. now apply IH.
Qed.

(** C2, what the code does. If the fact's first 30 characters hold no
    backslash (the escape character of LIKE patterns), no semantic row of
    the user matches the fact's prefix pattern and no row has the id the
    new row gets, then after
    [store_fact] with confidence [c1] and [store_fact] with the same
    category and fact and confidence [c2], exactly one semantic row of the
    user matches the pattern; it holds the fact, the first call stored
    [c1] in it, and after the second call its confidence is
    [min(c2 + 0.1, 1.0)], computed from the second call's argument. *)
Theorem store_fact_twice_single_record (hash16 : string -> string) (isoformat : Z -> string)
    (user_id category fact : string) (c1 c2 : Q) (s1 s2 : option string) (w : world) :
  w_down w Semantic = false ->
  no_backslash (substring 0 30 fact) = true ->
  filter (fun r => mkind_eqb (r_kind r) Semantic
                   && (String.eqb (r_user r) user_id
                       && ilike (r_content r) (pct (substring 0 30 fact)))) (w_rows w) = [] ->
  forallb (fun r => negb (String.eqb (r_id r)
             (hash16 (user_id ++ ":semantic:" ++ category ++ ":" ++ substring 0 50 fact)%string)))
          (w_rows w) = true ->
  exists r1 r2,
    filter (fun r => mkind_eqb (r_kind r) Semantic
                     && (String.eqb (r_user r) user_id
                         && ilike (r_content r) (pct (substring 0 30 fact))))
      (w_rows (snd (store_fact hash16 isoformat user_id category fact c1 s1 w))) = [r1] /\
    confidence_of r1 = Some c1 /\
    filter (fun r => mkind_eqb (r_kind r) Semantic
                     && (String.eqb (r_user r) user_id
                         && ilike (r_content r) (pct (substring 0 30 fact))))
      (w_rows (snd ((store_fact hash16 isoformat user_id category fact c1 s1
                     ;;; store_fact hash16 isoformat user_id category fact c2 s2) w))) = [r2] /\
    r_content r2 = fact /\
    confidence_of r2 = Some (Qmin (c2 + (1#10)) 1).
Proof.
  intros Hd Hnb Hnone Hfresh.
  set (mid := hash16 (user_id ++ ":semantic:" ++ category ++ ":" ++ substring 0 50 fact)%string) in *.
  set (P := fun r => mkind_eqb (r_kind r) Semantic
                     && (String.eqb (r_user r) user_id
                         && ilike (r_content r) (pct (substring 0 30 fact)))) in *.
  set (new := mkRow mid user_id Semantic None fact
                (Serialized [("category", JStr category); ("confidence", JNum c1);
                             ("source_session", jopt_str s1)]) High (w_now w) (w_now w) 0 1).
  assert (Hnew : P new = true).
  { unfold P, new. cbn [r_kind r_user r_content mkind_eqb andb].
    rewrite String.eqb_refl, (ilike_own_prefix _ _ Hnb). reflexivity. }
  assert (H1 : store_fact hash16 isoformat user_id category fact c1 s1 w
               = (Ok mid, set_rows w (w_rows w ++ [new]))).
  { unfold store_fact, bind, select, get_now. rewrite Hd. cbn beta. fold mid.
    change (filter (fun r => mkind_eqb (r_kind r) Semantic
              && (String.eqb (r_user r) user_id
                  && ilike (r_content r) (pct (substring 0 30 fact)))) (w_rows w))
      with (filter P (w_rows w)).
    rewrite Hnone. unfold catch, insert. rewrite Hd.
    cbn [r_id]. rewrite (forallb_negb_existsb _ _ Hfresh). reflexivity. }
  exists new.
  eexists. split; [|split; [|split; [|split]]].
  - rewrite H1. cbn [snd w_rows set_rows]. fold P.
    rewrite filter_app, Hnone, filter_single, Hnew. reflexivity.
  - reflexivity.
  - unfold bind at 1. rewrite H1.
    unfold store_fact, bind, select, get_now. cbn [w_down set_rows]. rewrite Hd.
    cbn beta. cbn [w_rows set_rows]. fold P.
    rewrite filter_app, Hnone, filter_single, Hnew. cbn [app].
    unfold update_by_id. cbn [w_down set_rows]. rewrite Hd. cbn [snd w_rows set_rows].
    rewrite map_app, map_update_fresh by exact Hfresh.
    cbn [map]. rewrite String.eqb_refl.
    unfold ret. cbn [snd w_rows set_rows].
    rewrite filter_app, Hnone, filter_single. cbn [app].
    match goal with
    | |- (if P ?x then _ else _) = _ => assert (Hx : P x = true)
    end.
    { unfold P, new. cbn [r_kind r_user r_content mkind_eqb andb].
      rewrite String.eqb_refl, (ilike_own_prefix _ _ Hnb). reflexivity. }
    rewrite Hx. reflexivity.
  - reflexivity.
  - reflexivity.
Qed.

Lemma store_fact_twice_single_record_witness :
  exists r1 r2,
    filter (fun r => mkind_eqb (r_kind r) Semantic
                     && (String.eqb (r_user r) "u"
                         && ilike (r_content r) (pct (substring 0 30 "Fractions compare by cross multiplication"))))
      (w_rows (snd (store_fact (fun s => s) (fun _ => "t") "u" "math"
                      "Fractions compare by cross multiplication" (4#5) None empty_world))) = [r1] /\
    confidence_of r1 = Some (4#5) /\
    filter (fun r => mkind_eqb (r_kind r) Semantic
                     && (String.eqb (r_user r) "u"
                         && ilike (r_content r) (pct (substring 0 30 "Fractions compare by cross multiplication"))))
      (w_rows (snd ((store_fact (fun s => s) (fun _ => "t") "u" "math"
                       "Fractions compare by cross multiplication" (4#5) None
                     ;;; store_fact (fun s => s) (fun _ => "t") "u" "math"
                       "Fractions compare by cross multiplication" (1#2) (Some "s2")) empty_world))) = [r2] /\
    r_content r2 = "Fractions compare by cross multiplication" /\
    confidence_of r2 = Some (Qmin ((1#2) + (1#10)) 1).
Proof.
  apply store_fact_twice_single_record; reflexivity.
Defined.

(** ** ProceduralMemory: the moving average of [success_rate] *)

Lemma dget_dict_set_same {V : Type} (d : list (string * V)) (k : string) (v : V) :
  dget (dict_set d k v) k = Some v.
Proof.
  induction d as [|[k' v'] d IH]; simpl.
  - rewrite String.eqb_refl. reflexivity.
  - destruct (String.eqb k k') eqn:E; simpl; rewrite E; [reflexivity | exact IH].
Qed.

Lemma dget_dict_set_other {V : Type} (d : list (string * V)) (k k' : string) (v : V) :
  String.eqb k' k = false -> dget (dict_set d k v) k' = dget d k'.
Proof.
  intros Hne. induction d as [|[k0 v0] d IH]; simpl.
  - rewrite Hne. reflexivity.
  - destruct (String.eqb k k0) eqn:E; simpl.
    + apply String.eqb_eq in E. subst k0. rewrite Hne. reflexivity.
    + destruct (String.eqb k' k0); [reflexivity | exact IH].
Qed.













(** * Properties of the rest of the code *)

(** ** [_detect_explanation_style] *)

(** Each style name occurs in the detected style exactly when its marker
    is present; the fallback [direct-explanation] is returned exactly when
    no marker is present. *)
Theorem detect_explanation_style_markers (response : string) :
  let style := detect_explanation_style response in
  contains "socratic" style = contains "?" (substring 0 200 response) /\
  contains "example-based" style
    = (contains "example" (str_lower response) || contains "for instance" (str_lower response)) /\
  contains "structured-list" style
    = (contains "1." response || contains bullet response || contains "- " response) /\
  contains "analogy" style
    = (contains "imagine" (str_lower response) || contains "think of" (str_lower response)) /\
  contains "code-example" style = contains "```" response /\
  contains "visual" style = contains "![" response /\
  (style = "direct-explanation" <->
   (contains "?" (substring 0 200 response)
    || (contains "example" (str_lower response) || contains "for instance" (str_lower response))
    || (contains "1." response || contains bullet response || contains "- " response)
    || (contains "imagine" (str_lower response) || contains "think of" (str_lower response))
    || contains "```" response || contains "![" response) = false).
Proof.
  cbv zeta. unfold detect_explanation_style, explanation_styles.
  destruct (contains "?" (substring 0 200 response)),
           (contains "example" (str_lower response) || contains "for instance" (str_lower response)),
           (contains "1." response || contains bullet response || contains "- " response),
           (contains "imagine" (str_lower response) || contains "think of" (str_lower response)),
           (contains "```" response), (contains "![" response);
    vm_compute; repeat split; intros; try reflexivity; discriminate.
Qed.

(** ** [auto_select_tool] *)

Lemma ascii_lower_idem (c : ascii) : ascii_lower (ascii_lower c) = ascii_lower c.
Proof. destruct c as [[] [] [] [] [] [] [] []]; reflexivity. Qed.

Lemma str_lower_idem (s : string) : str_lower (str_lower s) = str_lower s.
Proof. induction s as [|c s IH]; simpl; [reflexivity|]. now rewrite ascii_lower_idem, IH. Qed.

(** The tool chosen does not depend on letter case, and the default
    [chat] is chosen exactly when no pattern of the four groups occurs in
    the lower-cased message. *)
Theorem auto_select_tool_case_insensitive (message : string) :
  Supervisor.auto_select_tool (str_lower message) = Supervisor.auto_select_tool message /\
  (Supervisor.auto_select_tool message = "chat" <->
   forall pattern, In pattern (Supervisor.diagram_patterns ++ Supervisor.image_patterns
                               ++ Supervisor.report_patterns
                               ++ Supervisor.tool_presentation_patterns) ->
   contains pattern (str_lower message) = false).
Proof.
  unfold Supervisor.auto_select_tool. rewrite str_lower_idem. split; [reflexivity|].
  set (t := str_lower message).
  split.
  - destruct (existsb (fun pattern => contains pattern t) Supervisor.diagram_patterns) eqn:E1;
      [discriminate|].
    destruct (existsb (fun pattern => contains pattern t) Supervisor.image_patterns) eqn:E2;
      [discriminate|].
    destruct (existsb (fun pattern => contains pattern t) Supervisor.report_patterns) eqn:E3;
      [discriminate|].
    destruct (existsb (fun pattern => contains pattern t) Supervisor.tool_presentation_patterns) eqn:E4;
      [discriminate|].
    intros _ pattern Hin.
    destruct (contains pattern t) eqn:Ep; [|reflexivity]. exfalso.
    assert (Hx : existsb (fun pattern => contains pattern t)
                   (Supervisor.diagram_patterns ++ Supervisor.image_patterns
                    ++ Supervisor.report_patterns ++ Supervisor.tool_presentation_patterns) = true)
      by (apply existsb_exists; exists pattern; auto).
    rewrite !existsb_app, E1, E2, E3, E4 in Hx. discriminate.
  - intros H.
    assert (Hall : existsb (fun pattern => contains pattern t)
                     (Supervisor.diagram_patterns ++ Supervisor.image_patterns
                      ++ Supervisor.report_patterns ++ Supervisor.tool_presentation_patterns) = false).
    { destruct (existsb _ _) eqn:E; [|reflexivity].
      apply existsb_exists in E as (p & Hp & Hc). rewrite (H p Hp) in Hc. discriminate. }
    rewrite !existsb_app in Hall.
    apply orb_false_iff in Hall as [-> Hall]. apply orb_false_iff in Hall as [-> Hall].
    apply orb_false_iff in Hall as [-> ->]. reflexivity.
Qed.

(** ** [EpisodicMemory.store_episode] *)

(** [store_episode] never raises and always returns the id it computes;
    the row is appended when the episodic store answers and the id is
    free, and otherwise the store is left as it is (the failure is
    swallowed, so the id returned may name no row). *)
Theorem store_episode_result (hash16 : string -> string) (isoformat : Z -> string)
    (user_id session_id content : string) (context : jobj) (imp : importance) (w : world) :
  let memory_id := hash16 (user_id ++ ":" ++ session_id ++ ":" ++ isoformat (w_now w))%string in
  fst (store_episode hash16 isoformat user_id session_id content context imp w) = Ok memory_id /\
  snd (store_episode hash16 isoformat user_id session_id content context imp w)
    = if w_down w Episodic || existsb (fun r => String.eqb (r_id r) memory_id) (w_rows w)
      then w
      else set_rows w (w_rows w ++ [mkRow memory_id user_id Episodic (Some session_id) content
                                      (Serialized context) imp (w_now w) (w_now w) 0 1]).
Proof.
  cbv zeta. unfold store_episode, bind, get_now, catch, insert, ret. cbn [r_id].
  destruct (w_down w Episodic); cbn [orb]; [split; reflexivity|].
  destruct (existsb _ _); split; reflexivity.
Qed.

(** ** [EpisodicMemory.get_session_history] *)

Section SortAscFacts.
Variable A : Type.
Variable key : A -> Q.

Lemma insert_asc_perm (x : A) (l : list A) : Permutation (insert_asc key x l) (x :: l).
Proof.
  induction l as [|y l IH]; simpl; [auto|].
  destruct (Qle_bool (key x) (key y)); [auto|].
  rewrite IH. apply perm_swap.
Qed.

Lemma sort_asc_perm (l : list A) : Permutation (sort_asc key l) l.
Proof.
  induction l as [|x l IH]; simpl; [auto|].
  rewrite insert_asc_perm. now apply perm_skip.
Qed.

Lemma insert_asc_sorted (x : A) (l : list A) :
  Sorted (fun a b => key a <= key b) l -> Sorted (fun a b => key a <= key b) (insert_asc key x l).
Proof.
  induction l as [|y l IH]; simpl; intro Hs; [auto|].
  destruct (Qle_bool (key x) (key y)) eqn:E.
  - constructor; [exact Hs|]. constructor. now apply Qle_bool_iff.
  - apply Sorted_inv in Hs as [Hl Hh]. constructor; [auto|].
    assert (Hyx : key y <= key x).
    { apply Qlt_le_weak, Qnot_le_lt. intro C. apply Qle_bool_iff in C. congruence. }
    destruct l as [|z l]; simpl; [auto|].
    destruct (Qle_bool (key x) (key z)); constructor; [exact Hyx|]. now inversion Hh.
Qed.

Lemma sort_asc_sorted (l : list A) : Sorted (fun a b => key a <= key b) (sort_asc key l).
Proof. induction l; simpl; [constructor | now apply insert_asc_sorted]. Qed.

End SortAscFacts.

Lemma Sorted_weaken {A : Type} (R R' : A -> A -> Prop) (l : list A) :
  (forall a b, R a b -> R' a b) -> Sorted R l -> Sorted R' l.
Proof.
  intros H Hs. induction Hs as [|x l Hs IH Hh]; constructor; [exact IH|].
  destruct Hh; constructor. now apply H.
Qed.

(** [get_session_history] raises when the store fails; otherwise it writes
    nothing and returns every row of the user carrying the session id,
    of any memory type (working rows included), oldest first. *)
Theorem get_session_history_rows (user_id session_id : string) (w : world) :
  (w_down w Episodic = true -> get_session_history user_id session_id w = (Exc StoreError, w)) /\
  (w_down w Episodic = false ->
   exists rs,
     get_session_history user_id session_id w = (Ok rs, w) /\
     Permutation rs (filter (fun r => String.eqb (r_user r) user_id
                                      && opt_str_eqb (r_session r) session_id) (w_rows w)) /\
     Sorted (fun a b => r_recorded_at a <= r_recorded_at b)%Z rs).
Proof.
  unfold get_session_history, bind, select_any, ret.
  split; intros Hd; rewrite Hd; [reflexivity|].
  eexists. split; [reflexivity|]. split; [apply sort_asc_perm|].
  eapply Sorted_weaken; [|apply sort_asc_sorted].
  intros a b. unfold Qle. simpl. rewrite !Z.mul_1_r. tauto.
Qed.

(** ** Semantic facts read back through the profile *)

Lemma store_fact_insert (hash16 : string -> string) (isoformat : Z -> string)
    (user_id category fact : string) (confidence : Q) (source_session : option string) (w : world) :
  w_down w Semantic = false ->
  filter (fun r => mkind_eqb (r_kind r) Semantic
                   && (String.eqb (r_user r) user_id
                       && ilike (r_content r) (pct (substring 0 30 fact)))) (w_rows w) = [] ->
  forallb (fun r => negb (String.eqb (r_id r)
             (hash16 (user_id ++ ":semantic:" ++ category ++ ":" ++ substring 0 50 fact)%string)))
          (w_rows w) = true ->
  store_fact hash16 isoformat user_id category fact confidence source_session w
  = (Ok (hash16 (user_id ++ ":semantic:" ++ category ++ ":" ++ substring 0 50 fact)%string),
     set_rows w (w_rows w ++
       [mkRow (hash16 (user_id ++ ":semantic:" ++ category ++ ":" ++ substring 0 50 fact)%string)
          user_id Semantic None fact
          (Serialized [("category", JStr category); ("confidence", JNum confidence);
                       ("source_session", jopt_str source_session)])
          High (w_now w) (w_now w) 0 1])).
Proof.
  intros Hd Hnone Hfresh.
  unfold store_fact, bind, select, get_now. rewrite Hd. cbn beta. rewrite Hnone.
  unfold catch, insert. rewrite Hd. cbn [r_id].
  rewrite (forallb_negb_existsb _ _ Hfresh). reflexivity.
Qed.

Lemma foldM_app {A B} (f : A -> B -> M A) (a : A) (l1 l2 : list B) (w : world) :
  foldM f a (l1 ++ l2) w = bind (foldM f a l1) (fun a' => foldM f a' l2) w.
Proof.
  revert a w. induction l1 as [|x l1 IH]; intros a w; simpl; [reflexivity|].
  unfold bind. destruct (f a x w) as [[a1|e] w1]; [|reflexivity].
  specialize (IH a1 w1). unfold bind in IH. exact IH.
Qed.

Definition is_serialized (c : ctext) : bool :=
  match c with Serialized _ => true | Unparsable _ => false end.

Lemma profile_fold_serialized (l : list row) (p : profile) (w : world) :
  forallb (fun r => is_serialized (r_context r)) l = true ->
  exists p', foldM (fun p r => context <- lift (json_loads (r_context r)) ;;
                               ret (profile_add p (r_content r) context)) p l w = (Ok p', w).
Proof.
  revert p. induction l as [|x l IH]; intros p H; simpl; [exists p; reflexivity|].
  apply andb_true_iff in H as [Hx Hl].
  unfold bind at 1, lift. destruct (r_context x) as [o|raw]; [|discriminate].
  cbn [json_loads]. unfold bind, ret. apply IH, Hl.
Qed.

(** When the user's semantic rows all hold parsable contexts and the
    last row of the store is a semantic row of the user, the profile is
    the one of the rows before it, updated by that row. *)
Lemma get_user_profile_last (user_id : string) (w : world) (pre : list row) (x : row) (ctx : jobj) :
  w_down w Semantic = false ->
  w_rows w = pre ++ [x] ->
  forallb (fun r => is_serialized (r_context r))
          (filter (fun r => mkind_eqb (r_kind r) Semantic && String.eqb (r_user r) user_id) pre)
    = true ->
  r_kind x = Semantic -> r_user x = user_id -> r_context x = Serialized ctx ->
  exists p, get_user_profile user_id w = (Ok (profile_add p (r_content x) ctx), w).
Proof.
  intros Hd Hw Hser Hk Hu Hc.
  unfold get_user_profile, bind at 1, select. rewrite Hd. cbn beta.
  rewrite Hw, filter_app, filter_single, Hk, Hu. cbn [mkind_eqb andb]. rewrite String.eqb_refl.
  rewrite foldM_app.
  destruct (profile_fold_serialized _ empty_profile w Hser) as [p Hp].
  exists p. unfold bind at 1. rewrite Hp. simpl. unfold bind, lift. rewrite Hc. reflexivity.
Qed.

Lemma string_app_nil_r (s : string) : (s ++ "")%string = s.
Proof. induction s as [|c s IH]; simpl; [reflexivity | now rewrite IH]. Qed.

Lemma string_app_assoc (a b c : string) : ((a ++ b) ++ c)%string = (a ++ (b ++ c))%string.
Proof. induction a as [|x a IH]; simpl; [reflexivity | now rewrite IH]. Qed.

Lemma split_colon_aux_nocolon (s t cur : string) :
  ~ In ":"%char (list_ascii_of_string s) ->
  split_colon_aux (s ++ t) cur = split_colon_aux t (cur ++ s).
Proof.
  revert cur. induction s as [|c s IH]; intros cur H; simpl.
  - now rewrite string_app_nil_r.
  - simpl in H. destruct (Ascii.eqb_spec c ":"%char) as [E|E]; [exfalso; auto|].
    rewrite IH by tauto. now rewrite string_app_assoc.
Qed.

Lemma split_colon_pair (a b : string) :
  ~ In ":"%char (list_ascii_of_string a) -> ~ In ":"%char (list_ascii_of_string b) ->
  split_colon (a ++ ": " ++ b) = [a; (" " ++ b)%string].
Proof.
  intros Ha Hb. unfold split_colon.
  rewrite split_colon_aux_nocolon by exact Ha. simpl.
  rewrite <- (string_app_nil_r b) at 1.
  rewrite split_colon_aux_nocolon by exact Hb. reflexivity.
Qed.

Lemma profile_add_proficiency_other (p : profile) (content : string) (ctx : jobj) (k : string) :
  opt_str_eqb (proficiency_subject content ctx) k = false ->
  dget (p_proficiencies (profile_add p content ctx)) k = dget (p_proficiencies p) k.
Proof.
  destruct p as [ls pr it ch pf rf]. unfold profile_add, proficiency_subject.
  destruct (dget ctx "category") as [v|]; [|intros _; reflexivity].
  destruct v as [| | |s]; try (intros _; reflexivity).
  destruct (split_colon content) as [|a [|b [|c l]]];
    repeat (cbv beta iota; match goal with
            | |- context [match ?x with _ => _ end] => is_var x; destruct x
            end);
    try (intros _; reflexivity).
  intros H. apply dget_dict_set_other. rewrite String.eqb_sym. exact H.
Qed.

Lemma profile_fold_keep (l : list row) (p : profile) (w : world) (k : string) :
  forallb (fun r => is_serialized (r_context r)) l = true ->
  forallb (fun r => negb (opt_str_eqb (row_proficiency_subject r) k)) l = true ->
  exists p', foldM (fun p r => context <- lift (json_loads (r_context r)) ;;
                               ret (profile_add p (r_content r) context)) p l w = (Ok p', w) /\
             dget (p_proficiencies p') k = dget (p_proficiencies p) k.
Proof.
  revert p. induction l as [|x l IH]; intros p H Hk; [exists p; split; reflexivity|].
  cbn [forallb] in H, Hk. apply andb_true_iff in H as [Hx Hl].
  apply andb_true_iff in Hk as [Hkx Hkl]. unfold row_proficiency_subject in Hkx.
  cbn [foldM]. unfold bind at 1, lift.
  destruct (r_context x) as [o|raw]; [|discriminate]. cbn [json_loads].
  destruct (IH (profile_add p (r_content x) o) Hl Hkl) as [p' [Hf Hp']].
  exists p'. split; [exact Hf|]. rewrite Hp'.
  apply profile_add_proficiency_other. apply negb_true_iff in Hkx. exact Hkx.
Qed.

Lemma forallb_filter_incl {A} (f q : A -> bool) (l l' : list A) :
  (forall x, In x l' -> In x l) ->
  forallb f (filter q l) = true -> forallb f (filter q l') = true.
Proof.
  intros Hincl H. rewrite forallb_forall in H |- *. intros x Hx.
  apply filter_In in Hx as [Hx Hqx]. apply H, filter_In. auto.
Qed.

(** After [update_proficiency(subject, level)] on a store where the fact
    is new (no semantic row of the user matches its prefix pattern, its id
    is free), the user's semantic rows parse, and none of them already
    sets a proficiency for the stripped subject, [get_user_profile] maps
    the stripped subject to the stripped level, when neither contains a
    colon. The rows may come back from the store in any order. *)
Theorem update_proficiency_read_back (hash16 : string -> string) (isoformat : Z -> string)
    (user_id subject level evidence : string) (w : world) :
  w_down w Semantic = false ->
  filter (fun r => mkind_eqb (r_kind r) Semantic
                   && (String.eqb (r_user r) user_id
                       && ilike (r_content r) (pct (substring 0 30 (subject ++ ": " ++ level)))))
         (w_rows w) = [] ->
  forallb (fun r => negb (String.eqb (r_id r)
             (hash16 (user_id ++ ":semantic:" ++ "proficiency" ++ ":"
                      ++ substring 0 50 (subject ++ ": " ++ level))%string)))
          (w_rows w) = true ->
  forallb (fun r => is_serialized (r_context r))
          (filter (fun r => mkind_eqb (r_kind r) Semantic && String.eqb (r_user r) user_id)
                  (w_rows w)) = true ->
  forallb (fun r => negb (opt_str_eqb (row_proficiency_subject r) (strip subject)))
          (filter (fun r => mkind_eqb (r_kind r) Semantic && String.eqb (r_user r) user_id)
                  (w_rows w)) = true ->
  ~ In ":"%char (list_ascii_of_string subject) ->
  ~ In ":"%char (list_ascii_of_string level) ->
  let w' := snd (update_proficiency hash16 isoformat user_id subject level evidence w) in
  fst (update_proficiency hash16 isoformat user_id subject level evidence w) = Ok tt /\
  forall rs, Permutation rs (w_rows w') ->
  exists p, get_user_profile user_id (set_rows w' rs) = (Ok p, set_rows w' rs) /\
            dget (p_proficiencies p) (strip subject) = Some (strip level).
Proof.
  intros Hd Hnone Hfresh Hser Hother Hs Hl w'. subst w'.
  unfold update_proficiency, bind.
  rewrite (store_fact_insert hash16 isoformat user_id "proficiency" (subject ++ ": " ++ level)
             (85#100) (Some evidence) w Hd Hnone Hfresh).
  unfold ret. cbn [fst snd w_rows set_rows]. split; [reflexivity|].
  match goal with |- forall rs, Permutation rs (w_rows w ++ [?x0]) -> _ => set (x := x0) end.
  intros rs Hperm.
  assert (Hin : In x rs).
  { apply (Permutation_in x (Permutation_sym Hperm)). apply in_or_app. right. left. reflexivity. }
  apply in_split in Hin as (l1 & l2 & ->).
  assert (Hp12 : Permutation (l1 ++ l2) (w_rows w)).
  { rewrite <- (app_nil_r (w_rows w)). exact (Permutation_app_inv l1 l2 (w_rows w) [] x Hperm). }
  set (q := fun r => mkind_eqb (r_kind r) Semantic && String.eqb (r_user r) user_id).
  assert (Hsub1 : forall r, In r l1 -> In r (w_rows w)).
  { intros r Hr. apply (Permutation_in r Hp12). apply in_or_app. now left. }
  assert (Hsub2 : forall r, In r l2 -> In r (w_rows w)).
  { intros r Hr. apply (Permutation_in r Hp12). apply in_or_app. now right. }
  assert (Hqx : q x = true) by (unfold q, x; cbn; apply String.eqb_refl).
  set (W := set_rows (set_rows w (w_rows w ++ [x])) (l1 ++ x :: l2)).
  destruct (profile_fold_keep (filter q l1) empty_profile W (strip subject)
              (forallb_filter_incl _ q _ _ Hsub1 Hser)
              (forallb_filter_incl _ q _ _ Hsub1 Hother)) as [p1 [Hf1 _]].
  set (p2 := profile_add p1 (subject ++ ": " ++ level)
               [("category", JStr "proficiency"); ("confidence", JNum (85#100));
                ("source_session", jopt_str (Some evidence))]).
  assert (Hp2 : dget (p_proficiencies p2) (strip subject) = Some (strip level)).
  { unfold p2. destruct p1 as [ls pr it ch pf rf]. unfold profile_add.
    cbn [dget String.eqb Ascii.eqb Bool.eqb andb].
    rewrite (split_colon_pair subject level Hs Hl). cbn [p_proficiencies].
    apply dget_dict_set_same. }
  destruct (profile_fold_keep (filter q l2) p2 W (strip subject)
              (forallb_filter_incl _ q _ _ Hsub2 Hser)
              (forallb_filter_incl _ q _ _ Hsub2 Hother)) as [p3 [Hf3 Hk3]].
  exists p3. split; [|rewrite Hk3; exact Hp2].
  unfold get_user_profile, bind at 1, select. fold W.
  replace (w_down W Semantic) with false by exact (eq_sym Hd).
  change (filter (fun r => mkind_eqb (r_kind r) Semantic && String.eqb (r_user r) user_id)
                 (w_rows W)) with (filter q (l1 ++ x :: l2)).
  rewrite filter_app. cbn [filter]. rewrite Hqx. rewrite foldM_app.
  unfold bind at 1. rewrite Hf1. exact Hf3.
Qed.

(** [record_learning_preference(preference, value)] never stores [value]:
    on a store where the preference is new (no semantic row of the user
    matches its prefix pattern, its id is free) and the user's semantic
    rows parse, [get_user_profile] afterwards maps the preference to
    [True], whatever [value] was. *)
Theorem record_learning_preference_ignores_value (hash16 : string -> string)
    (isoformat : Z -> string) (user_id preference : string) (value : jval) (w : world) :
  w_down w Semantic = false ->
  filter (fun r => mkind_eqb (r_kind r) Semantic
                   && (String.eqb (r_user r) user_id
                       && ilike (r_content r) (pct (substring 0 30 preference)))) (w_rows w) = [] ->
  forallb (fun r => negb (String.eqb (r_id r)
             (hash16 (user_id ++ ":semantic:" ++ "preference" ++ ":"
                      ++ substring 0 50 preference)%string)))
          (w_rows w) = true ->
  forallb (fun r => is_serialized (r_context r))
          (filter (fun r => mkind_eqb (r_kind r) Semantic && String.eqb (r_user r) user_id)
                  (w_rows w)) = true ->
  let w' := snd (record_learning_preference hash16 isoformat user_id preference value w) in
  fst (record_learning_preference hash16 isoformat user_id preference value w) = Ok tt /\
  exists p, get_user_profile user_id w' = (Ok p, w') /\
            dget (p_preferences p) preference = Some (JBool true).
Proof.
  intros Hd Hnone Hfresh Hser w'. subst w'.
  unfold record_learning_preference, bind.
  rewrite (store_fact_insert hash16 isoformat user_id "preference" preference
             (9#10) None w Hd Hnone Hfresh).
  unfold ret. cbn [fst snd]. split; [reflexivity|].
  match goal with
  | |- exists p, get_user_profile _ ?w1 = _ /\ _ =>
      destruct (get_user_profile_last user_id w1 (w_rows w) _ _ Hd eq_refl Hser eq_refl eq_refl eq_refl)
        as [p Hp]
  end.
  eexists. split; [exact Hp|].
  destruct p as [ls pr it ch pf rf]. cbn [r_content].
  unfold profile_add. cbn [dget String.eqb Ascii.eqb Bool.eqb andb p_preferences].
  rewrite dget_dict_set_same. reflexivity.
Qed.

(** ** [WorkingMemory.add_to_context] *)

Lemma upsert_spec (k : mkind) (r : row) (w : world) :
  w_down w k = false ->
  exists rs, upsert k r w = (Ok tt, set_rows w rs) /\ In r rs /\
             (forall r', In r' rs -> r_id r' = r_id r -> r' = r).
Proof.
  intros Hd. unfold upsert. rewrite Hd.
  destruct (existsb (fun r' => String.eqb (r_id r') (r_id r)) (w_rows w)) eqn:E.
  - eexists. split; [reflexivity|]. split.
    + apply existsb_exists in E as (x & Hx & Hxe).
      apply in_map_iff. exists x. now rewrite Hxe.
    + intros r' Hin Hid. apply in_map_iff in Hin as (x & Hx & _).
      destruct (String.eqb (r_id x) (r_id r)) eqn:Ex; [exact (eq_sym Hx)|].
      subst r'. rewrite Hid, String.eqb_refl in Ex. discriminate.
  - eexists. split; [reflexivity|]. split; [apply in_or_app; right; now left|].
    intros r' Hin Hid. apply in_app_or in Hin as [Hin|[<-|[]]]; [|reflexivity].
    exfalso. assert (Hx : existsb (fun r' => String.eqb (r_id r') (r_id r)) (w_rows w) = true).
    { apply existsb_exists. exists r'. now rewrite Hid, String.eqb_refl. }
    congruence.
Qed.

Lemma filter_id_head (r : row) (rs : list row) :
  In r rs -> (forall r', In r' rs -> r_id r' = r_id r -> r' = r) ->
  exists rest, filter (fun r' => String.eqb (r_id r') (r_id r)) rs = r :: rest.
Proof.
  induction rs as [|x rs IH]; intros Hin Hall; [destruct Hin|]. simpl.
  destruct (String.eqb (r_id x) (r_id r)) eqn:E.
  - apply String.eqb_eq in E. rewrite (Hall x (or_introl eq_refl) E). eauto.
  - destruct Hin as [->|Hin]; [rewrite String.eqb_refl in E; discriminate|].
    apply IH; [exact Hin|]. intros r' H. apply Hall. now right.
Qed.

(** The read of the store by [get_from_context] ([from_db]). *)
Lemma get_from_context_db_read (session_id key : string) (w : world) (r : row)
    (rest : list row) (ctx : jobj) :
  w_down w Working = false ->
  filter (fun r' => String.eqb (r_id r') (wm_id session_id key)) (w_rows w) = r :: rest ->
  r_context r = Serialized ctx ->
  (rs <- select_any Working (fun r => String.eqb (r_id r) (wm_id session_id key)) ;;
   match rs with
   | r :: _ => context <- lift (json_loads (r_context r)) ;;
               ret (match dget context "value" with Some v => v | None => JNull end)
   | [] => ret JNull
   end) w
  = (Ok (match dget ctx "value" with Some v => v | None => JNull end), w).
Proof.
  intros Hd Hf Hr. unfold bind, select_any. rewrite Hd, Hf. unfold lift. rewrite Hr.
  reflexivity.
Qed.

Lemma get_from_context_store (session_id key : string) (w : world) (r : row) (rest : list row)
    (ctx : jobj) :
  dget (w_cache w) key = None ->
  w_down w Working = false ->
  filter (fun r' => String.eqb (r_id r') (wm_id session_id key)) (w_rows w) = r :: rest ->
  r_context r = Serialized ctx ->
  get_from_context session_id key w
  = (Ok (match dget ctx "value" with Some v => v | None => JNull end), w).
Proof.
  intros Hc Hd Hf Hr. unfold get_from_context. rewrite Hc.
  exact (get_from_context_db_read session_id key w r rest ctx Hd Hf Hr).
Qed.

Lemma dt_add_in_range (t secs : Z) :
  datetime_ok t = true -> datetime_ok (t + secs) = true -> dt_add t secs = Ok (t + secs)%Z.
Proof.
  unfold dt_add, datetime_ok, timedelta_ok. intros H1 H2. rewrite H2.
  apply andb_true_iff in H1 as [H1a H1b]. apply andb_true_iff in H2 as [H2a H2b].
  apply Z.leb_le in H1a, H1b, H2a, H2b.
  replace ((-999999999 * 86400 <=? secs)%Z && (secs <? 1000000000 * 86400)%Z) with true;
    [reflexivity|].
  symmetry. apply andb_true_iff. split; [apply Z.leb_le | apply Z.ltb_lt]; lia.
Qed.

Lemma dt_add_out_of_range (t secs : Z) :
  datetime_ok (t + secs) = false -> dt_add t secs = Exc OverflowError.
Proof. unfold dt_add. intros H. rewrite H, andb_false_r. reflexivity. Qed.

Lemma add_to_context_overflow (user_id session_id key : string) (value : jval) (ttl_minutes : Z)
    (w : world) :
  datetime_ok (w_now w + ttl_minutes * 60) = false ->
  add_to_context user_id session_id key value ttl_minutes w = (Exc OverflowError, w).
Proof.
  intros H. unfold add_to_context, bind, get_now, lift. rewrite (dt_add_out_of_range _ _ H).
  reflexivity.
Qed.

Lemma add_to_context_world (user_id session_id key : string) (value : jval) (ttl_minutes : Z)
    (w : world) :
  dt_add (w_now w) (ttl_minutes * 60) = Ok (w_now w + ttl_minutes * 60)%Z ->
  let row0 := mkRow (wm_id session_id key) user_id Working (Some session_id) key
                (Serialized [("value", value); ("ttl_minutes", JNum (inject_Z ttl_minutes))])
                Low (w_now w) (w_now w) 0 1 in
  let cache' := dict_set (w_cache w) key (value, (w_now w + ttl_minutes * 60)%Z) in
  (w_down w Working = true ->
   add_to_context user_id session_id key value ttl_minutes w = (Ok tt, set_cache w cache')) /\
  (w_down w Working = false ->
   exists rs, add_to_context user_id session_id key value ttl_minutes w
              = (Ok tt, set_rows (set_cache w cache') rs) /\ In row0 rs /\
              (forall r', In r' rs -> r_id r' = r_id row0 -> r' = row0)).
Proof.
  intros Hdt row0 cache'. unfold add_to_context, bind, get_now, lift. rewrite Hdt.
  unfold catch. cbn [w_now set_cache].
  split; intros Hd.
  - unfold upsert. cbn [w_down set_cache]. rewrite Hd. reflexivity.
  - destruct (upsert_spec Working row0 (set_cache w cache') Hd) as (rs & Hu & Hin & Hall).
    exists rs. unfold row0, cache' in *. rewrite Hu. auto.
Qed.

(** [add_to_context] raises [OverflowError], and changes nothing, when the
    expiry [utcnow() + timedelta(minutes=ttl_minutes)] leaves the range of
    [datetime]. Otherwise it does not raise; a value put with a positive
    time to live reads back from the same instance, whether the store
    answers or not. With a time to live of zero minutes or less the cache
    entry is already expired: the read goes to the store, which yields the
    value when it answered the upsert and raises when it fails. *)
Theorem add_to_context_read_back (user_id session_id key : string) (value : jval)
    (ttl_minutes : Z) (w : world) :
  datetime_ok (w_now w) = true ->
  (datetime_ok (w_now w + ttl_minutes * 60) = false ->
   add_to_context user_id session_id key value ttl_minutes w = (Exc OverflowError, w)) /\
  (datetime_ok (w_now w + ttl_minutes * 60) = true ->
   let w1 := snd (add_to_context user_id session_id key value ttl_minutes w) in
   fst (add_to_context user_id session_id key value ttl_minutes w) = Ok tt /\
   ((0 < ttl_minutes)%Z -> get_from_context session_id key w1 = (Ok value, w1)) /\
   ((ttl_minutes <= 0)%Z -> w_down w Working = false ->
    fst (get_from_context session_id key w1) = Ok value) /\
   ((ttl_minutes <= 0)%Z -> w_down w Working = true ->
    fst (get_from_context session_id key w1) = Exc StoreError)).
Proof.
  intros Hnow. split; [apply add_to_context_overflow|]. intros Hexp.
  cbv zeta.
  destruct (add_to_context_world user_id session_id key value ttl_minutes w
              (dt_add_in_range _ _ Hnow Hexp)) as [Hdown Hup].
  destruct (w_down w Working) eqn:Hd.
  - rewrite (Hdown eq_refl). cbn [fst snd]. split; [reflexivity|]. split; [|split].
    + intros Ht. unfold get_from_context. cbn [w_cache w_now set_cache].
      rewrite dget_dict_set_same. replace (Z.ltb (w_now w) (w_now w + ttl_minutes * 60)) with true
        by (symmetry; apply Z.ltb_lt; lia). reflexivity.
    + intros _ H. discriminate.
    + intros Ht _. unfold get_from_context. cbn [w_cache w_now set_cache].
      rewrite dget_dict_set_same. replace (Z.ltb (w_now w) (w_now w + ttl_minutes * 60)) with false
        by (symmetry; apply Z.ltb_ge; lia).
      unfold bind, select_any. cbn [w_down set_cache]. rewrite Hd. reflexivity.
  - destruct (Hup eq_refl) as (rs & Ha & Hin & Hall). rewrite Ha. cbn [fst snd].
    split; [reflexivity|]. split; [|split].
    + intros Ht. unfold get_from_context. cbn [w_cache w_now set_cache set_rows].
      rewrite dget_dict_set_same. replace (Z.ltb (w_now w) (w_now w + ttl_minutes * 60)) with true
        by (symmetry; apply Z.ltb_lt; lia). reflexivity.
    + intros Ht _. unfold get_from_context. cbn [w_cache w_now set_cache set_rows].
      rewrite dget_dict_set_same. replace (Z.ltb (w_now w) (w_now w + ttl_minutes * 60)) with false
        by (symmetry; apply Z.ltb_ge; lia).
      destruct (filter_id_head _ rs Hin Hall) as [rest Hf].
      cbn [r_id] in Hf.
      erewrite (get_from_context_db_read session_id key _ _ rest
                 [("value", value); ("ttl_minutes", JNum (inject_Z ttl_minutes))]);
        [reflexivity | exact Hd | exact Hf | reflexivity].
    + intros _ H. discriminate.
Qed.

(** The store keeps no expiry: after [add_to_context] answered by the
    store (its expiry computed without overflow), a fresh instance (empty
    cache) reads the value back at any later time, whatever the time to
    live was. *)
Theorem add_to_context_store_no_expiry (user_id session_id key : string) (value : jval)
    (ttl_minutes : Z) (w : world) :
  w_down w Working = false ->
  datetime_ok (w_now w) = true ->
  datetime_ok (w_now w + ttl_minutes * 60) = true ->
  forall t : Z,
  let w1 := snd (add_to_context user_id session_id key value ttl_minutes w) in
  let fresh := mkWorld (w_rows w1) (w_messages w1) (w_down w1) (w_msgs_down w1) [] t in
  get_from_context session_id key fresh = (Ok value, fresh).
Proof.
  intros Hd Hnow Hexp t. cbv zeta.
  destruct (add_to_context_world user_id session_id key value ttl_minutes w
              (dt_add_in_range _ _ Hnow Hexp)) as [_ Hup].
  destruct (Hup Hd) as (rs & Ha & Hin & Hall). rewrite Ha. cbn [snd w_rows w_messages w_down
    w_msgs_down set_rows set_cache].
  destruct (filter_id_head _ rs Hin Hall) as [rest Hf].
  cbn [r_id] in Hf.
  eapply (get_from_context_store session_id key _ _ rest
           [("value", value); ("ttl_minutes", JNum (inject_Z ttl_minutes))]);
    [reflexivity | exact Hd | exact Hf | reflexivity].
Qed.

(** After [add_to_context] (its expiry computed without overflow),
    [clear_session] on the same session makes the key read as absent
    ([None], here [JNull]), from the cache and from the store: every row
    with the key's id is the session's working row. *)
Theorem clear_session_forgets_context (user_id session_id key : string) (value : jval)
    (ttl_minutes : Z) (w : world) :
  w_down w Working = false ->
  datetime_ok (w_now w) = true ->
  datetime_ok (w_now w + ttl_minutes * 60) = true ->
  let w2 := snd ((add_to_context user_id session_id key value ttl_minutes ;;;
                  clear_session session_id) w) in
  fst ((add_to_context user_id session_id key value ttl_minutes ;;; clear_session session_id) w)
  = Ok tt /\
  get_from_context session_id key w2 = (Ok JNull, w2).
Proof.
  intros Hd Hnow Hexp. cbv zeta.
  destruct (add_to_context_world user_id session_id key value ttl_minutes w
              (dt_add_in_range _ _ Hnow Hexp)) as [_ Hup].
  destruct (Hup Hd) as (rs & Ha & Hin & Hall).
  set (keep := fun r => negb (mkind_eqb (r_kind r) Working && opt_str_eqb (r_session r) session_id)).
  set (c := dict_set (w_cache w) key (value, (w_now w + ttl_minutes * 60)%Z)).
  assert (Hc : (add_to_context user_id session_id key value ttl_minutes ;;;
                clear_session session_id) w
               = (Ok tt, set_rows (set_cache (set_rows (set_cache w c) rs) []) (filter keep rs))).
  { cbv beta delta [bind]. rewrite Ha.
    unfold clear_session, bind, catch, delete. cbn [w_down set_rows set_cache]. rewrite Hd.
    reflexivity. }
  rewrite Hc. cbn [fst snd]. split; [reflexivity|].
  unfold get_from_context. cbn [w_cache dget set_rows set_cache]. unfold bind, select_any.
  replace (w_down _ Working) with false by exact (eq_sym Hd). cbn [w_rows set_rows].
  unfold keep.
  replace (filter _ (filter _ rs)) with (@nil row); [reflexivity|].
  destruct (filter (fun r => String.eqb (r_id r) (wm_id session_id key))
              (filter (fun r => negb (mkind_eqb (r_kind r) Working
                                      && opt_str_eqb (r_session r) session_id)) rs))
    as [|r rs'] eqn:E; [reflexivity|].
  exfalso. assert (Hr : In r (r :: rs')) by (left; reflexivity).
  rewrite <- E in Hr. apply filter_In in Hr as [Hr Hid]. apply filter_In in Hr as [Hr Hkeep].
  apply String.eqb_eq in Hid. rewrite (Hall r Hr Hid) in Hkeep. cbn in Hkeep.
  rewrite String.eqb_refl in Hkeep. discriminate.
Qed.

Lemma update_proficiency_read_back_witness :
  let w := mkWorld [mkRow "f1" "u" Semantic None "geometry: beginner"
                      (Serialized [("category", JStr "proficiency")]) Medium 0 0 0 1;
                    mkRow "f2" "u" Semantic None "likes diagrams" (Serialized []) Medium 0 0 0 1]
             [] (fun _ => false) false [] 10 in
  let w' := snd (update_proficiency (fun s => s) (fun _ => "t") "u" "algebra" "advanced" "quiz" w) in
  fst (update_proficiency (fun s => s) (fun _ => "t") "u" "algebra" "advanced" "quiz" w) = Ok tt /\
  exists p, get_user_profile "u" (set_rows w' (rev (w_rows w'))) = (Ok p, set_rows w' (rev (w_rows w'))) /\
            dget (p_proficiencies p) (strip "algebra") = Some (strip "advanced").
Proof.
  cbv zeta.
  edestruct (update_proficiency_read_back (fun s => s) (fun _ => "t") "u" "algebra" "advanced"
               "quiz" (mkWorld [mkRow "f1" "u" Semantic None "geometry: beginner"
                                  (Serialized [("category", JStr "proficiency")]) Medium 0 0 0 1;
                                mkRow "f2" "u" Semantic None "likes diagrams" (Serialized [])
                                  Medium 0 0 0 1]
                         [] (fun _ => false) false [] 10)) as [H1 H2];
    [reflexivity | vm_compute; reflexivity | vm_compute; reflexivity | vm_compute; reflexivity
    | vm_compute; reflexivity | simpl; intuition discriminate | simpl; intuition discriminate |].
  split; [exact H1|]. apply H2. apply Permutation_sym, Permutation_rev.
Defined.

Lemma record_learning_preference_ignores_value_witness :
  let w := mkWorld [mkRow "f1" "u" Semantic None "algebra: advanced" (Serialized []) Medium 0 0 0 1]
             [] (fun _ => false) false [] 10 in
  let w' := snd (record_learning_preference (fun s => s) (fun _ => "t") "u" "visual" (JStr "no") w) in
  fst (record_learning_preference (fun s => s) (fun _ => "t") "u" "visual" (JStr "no") w) = Ok tt /\
  exists p, get_user_profile "u" w' = (Ok p, w') /\
            dget (p_preferences p) "visual" = Some (JBool true).
Proof.
  apply (record_learning_preference_ignores_value (fun s => s) (fun _ => "t") "u" "visual" (JStr "no"));
    vm_compute; reflexivity.
Defined.

Lemma add_to_context_read_back_witness :
  let w1 := snd (add_to_context "u" "s1" "current_topic" (JStr "fractions") 120 empty_world) in
  fst (add_to_context "u" "s1" "current_topic" (JStr "fractions") 120 empty_world) = Ok tt /\
  ((0 < 120)%Z -> get_from_context "s1" "current_topic" w1 = (Ok (JStr "fractions"), w1)) /\
  ((120 <= 0)%Z -> w_down empty_world Working = false ->
   fst (get_from_context "s1" "current_topic" w1) = Ok (JStr "fractions")) /\
  ((120 <= 0)%Z -> w_down empty_world Working = true ->
   fst (get_from_context "s1" "current_topic" w1) = Exc StoreError).
Proof.
  exact (proj2 (add_to_context_read_back "u" "s1" "current_topic" (JStr "fractions") 120
                  empty_world eq_refl) eq_refl).
Defined.

Lemma add_to_context_store_no_expiry_witness :
  w_down empty_world Working = false /\
  let w1 := snd (add_to_context "u" "s1" "current_topic" (JStr "fractions") (-5) empty_world) in
  let fresh := mkWorld (w_rows w1) (w_messages w1) (w_down w1) (w_msgs_down w1) [] 100000 in
  get_from_context "s1" "current_topic" fresh = (Ok (JStr "fractions"), fresh).
Proof.
  split; [reflexivity|].
  exact (add_to_context_store_no_expiry "u" "s1" "current_topic" (JStr "fractions") (-5)
           empty_world eq_refl eq_refl eq_refl 100000).
Defined.

Lemma clear_session_forgets_context_witness :
  let w := mkWorld [mkRow "wm:s2:current_topic" "u" Working (Some "s2") "current_topic"
                      (Serialized [("value", JStr "graphs")]) Low 0 0 0 1]
             [] (fun _ => false) false [] 10 in
  let w2 := snd ((add_to_context "u" "s1" "current_topic" (JStr "fractions") 120 ;;;
                  clear_session "s1") w) in
  fst ((add_to_context "u" "s1" "current_topic" (JStr "fractions") 120 ;;; clear_session "s1") w)
  = Ok tt /\
  get_from_context "s1" "current_topic" w2 = (Ok JNull, w2).
Proof.
  apply (clear_session_forgets_context "u" "s1" "current_topic" (JStr "fractions") 120);
    reflexivity.
Defined.

(** ** The reads of [build_context_for_query] change access counts only *)


Lemma forget_bump_access (i : string) (r : row) : forget_access (bump_access i r) = forget_access r.
Proof. unfold bump_access. destruct (String.eqb (r_id r) i); reflexivity. Qed.

Lemma forget_add_access (n : Z) (r : row) : forget_access (add_access n r) = forget_access r.
Proof. reflexivity. Qed.

Lemma update_access_forget (i : string) (w : world) :
  fst (update_access i w) = Ok tt /\ forget_world (snd (update_access i w)) = forget_world w.
Proof.
  unfold update_access, catch, bind, rpc_increment_access_count, raise, ret.
  destruct (w_down w Episodic); [split; reflexivity|]. cbn [fst snd]. split; [reflexivity|].
  unfold forget_world, set_rows. cbn [w_rows w_messages w_down w_msgs_down w_cache w_now].
  rewrite map_map. f_equal. apply map_ext. apply forget_bump_access.
Qed.

Section ReadOnly.

Lemma ro_bind {A B} (m : M A) (k : A -> M B) :
  (forall w, w_cache w = [] -> forget_world (snd (m w)) = forget_world w) ->
  (forall a w, w_cache w = [] -> forget_world (snd (k a w)) = forget_world w) ->
  forall w, w_cache w = [] -> forget_world (snd (bind m k w)) = forget_world w.
Proof.
  intros Hm Hk w Hc. unfold bind. specialize (Hm w Hc).
  destruct (m w) as [[a|e] w'] eqn:E; cbn [snd] in Hm |- *; [|exact Hm].
  rewrite <- Hm. apply Hk. change (w_cache (forget_world w') = []). rewrite Hm. exact Hc.
Qed.

Lemma ro_ret {A} (a : A) : forall w, w_cache w = [] -> forget_world (snd (ret a w)) = forget_world w.
Proof. reflexivity. Qed.

Lemma ro_lift {A} (x : exc A) :
  forall w, w_cache w = [] -> forget_world (snd (lift x w)) = forget_world w.
Proof. reflexivity. Qed.

Lemma ro_get_now : forall w, w_cache w = [] -> forget_world (snd (get_now w)) = forget_world w.
Proof. reflexivity. Qed.

Lemma ro_select k p :
  forall w, w_cache w = [] -> forget_world (snd (select k p w)) = forget_world w.
Proof. intros w _. unfold select. destruct (w_down w k); reflexivity. Qed.

Lemma ro_select_any k p :
  forall w, w_cache w = [] -> forget_world (snd (select_any k p w)) = forget_world w.
Proof. intros w _. unfold select_any. destruct (w_down w k); reflexivity. Qed.

Lemma ro_select_messages p :
  forall w, w_cache w = [] -> forget_world (snd (select_messages p w)) = forget_world w.
Proof. intros w _. unfold select_messages. destruct (w_msgs_down w); reflexivity. Qed.

Lemma ro_update_access (i : string) :
  forall w, w_cache w = [] -> forget_world (snd (update_access i w)) = forget_world w.
Proof. intros w _. apply update_access_forget. Qed.

Lemma ro_foldM {A B} (f : A -> B -> M A) :
  (forall a b w, w_cache w = [] -> forget_world (snd (f a b w)) = forget_world w) ->
  forall l acc w, w_cache w = [] -> forget_world (snd (foldM f acc l w)) = forget_world w.
Proof.
  intros Hf l. induction l as [|x l IH]; intros acc; cbn [foldM]; [apply ro_ret|].
  apply ro_bind; [apply Hf|]. intros a. apply IH.
Qed.

Lemma ro_mapM {A B} (f : A -> M B) :
  (forall a w, w_cache w = [] -> forget_world (snd (f a w)) = forget_world w) ->
  forall l w, w_cache w = [] -> forget_world (snd (mapM f l w)) = forget_world w.
Proof.
  intros Hf l. induction l as [|x l IH]; cbn [mapM]; [apply ro_ret|].
  apply ro_bind; [apply Hf|]. intros y. apply ro_bind; [apply IH|]. intros ys. apply ro_ret.
Qed.

Lemma ro_mapM_ {A} (f : A -> M unit) :
  (forall a w, w_cache w = [] -> forget_world (snd (f a w)) = forget_world w) ->
  forall l w, w_cache w = [] -> forget_world (snd (mapM_ f l w)) = forget_world w.
Proof.
  intros Hf l. induction l as [|x l IH]; cbn [mapM_]; [apply ro_ret|].
  apply ro_bind; [apply Hf|]. intros _. apply IH.
Qed.

End ReadOnly.

Create HintDb readonly.

#[local] Hint Resolve ro_ret ro_lift ro_get_now ro_select ro_select_any ro_select_messages
  ro_update_access : readonly.

Ltac readonly_step :=
  first [ apply ro_bind; [ | intro ]
        | apply ro_foldM; intros ? ?
        | apply ro_mapM; intros ?
        | apply ro_mapM_; intros ?
        | solve [ eauto with readonly ] ].



Lemma ro_get_effective_strategies (user_id : string) (ct : option string) (q : Q) :
  forall w, w_cache w = [] ->
  forget_world (snd (get_effective_strategies user_id ct q w)) = forget_world w.
Proof.
  unfold get_effective_strategies, strategies_step. repeat readonly_step.
  destruct (Qle_bool q _); [destruct (type_matches ct _)|]; repeat readonly_step.
Qed.

Lemma ro_get_conversation_summary (session_id : string) :
  forall w, w_cache w = [] ->
  forget_world (snd (get_conversation_summary session_id w)) = forget_world w.
Proof.
  unfold get_conversation_summary. repeat readonly_step.
  destruct (firstn 10 _); repeat readonly_step.
Qed.



(** ** The result of [build_context_for_query] does not read access counts *)

Section Stable.

























End Stable.

(** ** [load_memory_context] of [supervisor.py] *)


(** ** [save_interaction_memory] of [supervisor.py] *)

Lemma filter_map_replace (Q : row -> bool) (r : row) (rows : list row) :
  Q r = false ->
  (forall r', In r' rows -> r_id r' = r_id r -> Q r' = false) ->
  filter Q (map (fun r' => if String.eqb (r_id r') (r_id r) then r else r') rows) = filter Q rows.
Proof.
  intros Hr. induction rows as [|x rows IH]; intros Hall; [reflexivity|]. cbn [map filter].
  destruct (String.eqb (r_id x) (r_id r)) eqn:E.
  - apply String.eqb_eq in E. rewrite Hr, (Hall x (or_introl eq_refl) E).
    apply IH. intros r' H. apply Hall. now right.
  - destruct (Q x); [f_equal|]; apply IH; intros r' H; apply Hall; now right.
Qed.

Lemma add_to_context_frame (user_id session_id key : string) (value : jval) (ttl_minutes : Z)
    (w : world) (Q : row -> bool) :
  (forall r, mkind_eqb (r_kind r) Working = true -> Q r = false) ->
  (forall r, In r (w_rows w) -> r_id r = wm_id session_id key -> Q r = false) ->
  w_down (snd (add_to_context user_id session_id key value ttl_minutes w)) = w_down w /\
  w_now (snd (add_to_context user_id session_id key value ttl_minutes w)) = w_now w /\
  filter Q (w_rows (snd (add_to_context user_id session_id key value ttl_minutes w)))
  = filter Q (w_rows w).
Proof.
  intros HW Hid. unfold add_to_context, bind, get_now, lift. cbn [w_now].
  destruct (dt_add (w_now w) (ttl_minutes * 60)) as [exp|e]; [|repeat split].
  unfold catch, upsert. cbn [w_down w_rows w_now set_cache].
  destruct (w_down w Working); [repeat split|].
  destruct (existsb _ _); cbn [fst snd w_down w_rows w_now set_rows]; repeat split.
  - apply filter_map_replace; [apply HW; reflexivity|]. exact Hid.
  - rewrite filter_app. cbn [filter]. rewrite HW by reflexivity. apply app_nil_r.
Qed.

Lemma store_episode_eq (hash16 : string -> string) (isoformat : Z -> string)
    (user_id session_id content : string) (context : jobj) (imp : importance) (w : world) :
  exists w1, store_episode hash16 isoformat user_id session_id content context imp w
             = (Ok (hash16 (user_id ++ ":" ++ session_id ++ ":" ++ isoformat (w_now w))%string), w1) /\
             w_down w1 = w_down w /\ w_now w1 = w_now w /\ w_cache w1 = w_cache w /\
             (forall Q, (forall r, mkind_eqb (r_kind r) Episodic = true -> Q r = false) ->
                        filter Q (w_rows w1) = filter Q (w_rows w)) /\
             (forall r, In r (w_rows w1) -> In r (w_rows w) \/ r_kind r = Episodic).
Proof.
  unfold store_episode, bind, get_now, catch, insert, ret. cbn [r_id].
  destruct (w_down w Episodic); [eexists; repeat split; auto|].
  destruct (existsb _ _); eexists; (split; [reflexivity|]); repeat split; auto.
  - intros Q HQ. cbn [w_rows set_rows]. rewrite filter_app. cbn [filter].
    rewrite HQ by reflexivity. apply app_nil_r.
  - intros r Hr. cbn [w_rows set_rows] in Hr. apply in_app_or in Hr as [Hr|[<-|[]]]; auto.
Qed.

Lemma process_interaction_chat (hash16 : string -> string) (isoformat : Z -> string)
    (user_id session_id user_message assistant_response : string) (topic : option string)
    (w : world) :
  let Q := fun r => mkind_eqb (r_kind r) Semantic || mkind_eqb (r_kind r) Procedural in
  exists res w2,
    process_interaction hash16 isoformat user_id session_id user_message assistant_response
      topic None (Some []) w = (res, w2) /\
    (forallb (fun r => negb (String.eqb (r_id r) (wm_id session_id "current_topic"))
                       || mkind_eqb (r_kind r) Working) (w_rows w) = true ->
     filter Q (w_rows w2) = filter Q (w_rows w)) /\
    (w_down w Working = false -> datetime_ok (w_now w) = true ->
     datetime_ok (w_now w + 120 * 60) = true ->
     forall t, topic = Some t -> t <> "" ->
     fst (get_current_topic session_id (set_cache w2 [])) = Ok (JStr t)).
Proof.
  intros Q. unfold process_interaction, bind.
  match goal with |- context [store_episode ?h ?i ?u ?s ?c ?x ?m w] =>
    destruct (store_episode_eq h i u s c x m w) as (w1 & He & Hd1 & Hn1 & Hc1 & Hf1 & Hin1) end.
  rewrite He.
  assert (HQ1 : filter Q (w_rows w1) = filter Q (w_rows w)) by (apply Hf1; intros r Hr;
    unfold Q; destruct (r_kind r); discriminate || reflexivity).
  destruct topic as [t|].
  2: { exists (Ok tt), w1. split; [reflexivity|]. split; [intros _; exact HQ1|].
       intros _ _ _ t' H. discriminate. }
  destruct (String.eqb t "") eqn:Et.
  { exists (Ok tt), w1. split; [reflexivity|]. split; [intros _; exact HQ1|].
    intros _ _ _ t' [= <-] Hne. apply String.eqb_eq in Et. contradiction. }
  unfold set_current_topic.
  destruct (add_to_context user_id session_id "current_topic" (JStr t) 120 w1)
    as [res w2] eqn:Ea.
  assert (Hframe : forallb (fun r => negb (String.eqb (r_id r) (wm_id session_id "current_topic"))
                                     || mkind_eqb (r_kind r) Working) (w_rows w) = true ->
                   filter Q (w_rows w2) = filter Q (w_rows w)).
  { intros Hid.
    destruct (add_to_context_frame user_id session_id "current_topic" (JStr t) 120 w1 Q)
      as (_ & _ & HaQ).
    - intros r Hr. unfold Q. destruct (r_kind r); discriminate || reflexivity.
    - intros r Hr Hrid. apply Hin1 in Hr as [Hr|Hr].
      + apply forallb_forall with (x := r) in Hid; [|exact Hr].
        rewrite Hrid, String.eqb_refl in Hid. unfold Q.
        destruct (r_kind r); discriminate || reflexivity.
      + unfold Q. rewrite Hr. reflexivity.
    - rewrite Ea in HaQ. cbn [snd] in HaQ. rewrite HaQ. exact HQ1. }
  assert (Htopic : w_down w Working = false -> datetime_ok (w_now w) = true ->
                   datetime_ok (w_now w + 120 * 60) = true ->
                   forall t', Some t = Some t' -> t' <> "" ->
                   fst (get_current_topic session_id (set_cache w2 [])) = Ok (JStr t')).
  { intros Hd Hnow Hexp t' [= <-] _.
    rewrite <- Hn1 in Hnow, Hexp.
    destruct (add_to_context_world user_id session_id "current_topic" (JStr t) 120 w1
                (dt_add_in_range _ _ Hnow Hexp)) as [_ Hup].
    rewrite Hd1 in Hup. destruct (Hup Hd) as (rs & Ha' & Hin & Hall).
    rewrite Ea in Ha'. injection Ha' as -> ->.
    destruct (filter_id_head _ rs Hin Hall) as [rest Hf]. cbn [r_id] in Hf.
    unfold get_current_topic.
    erewrite (get_from_context_store session_id "current_topic" _ _ rest
                [("value", JStr t); ("ttl_minutes", JNum (inject_Z 120))]);
      [reflexivity | reflexivity | | exact Hf | reflexivity].
    cbn [w_down set_cache set_rows]. rewrite Hd1. exact Hd. }
  destruct res as [[]|e].
  - exists (Ok tt), w2. split; [reflexivity|]. split; [exact Hframe | exact Htopic].
  - exists (Exc e), w2. split; [reflexivity|]. split; [exact Hframe | exact Htopic].
Qed.

(** [save_interaction_memory] as the chat endpoint calls it (no facts, no
    feedback) never raises and leaves the caller's cache alone, always.
    It does not touch the semantic and procedural memories when no such
    row has the id of the session's [current_topic] entry. When working
    memory answers and the expiry two hours ahead is a valid [datetime],
    a non-empty topic becomes the session's current topic for a fresh
    instance. *)
Theorem save_interaction_memory_after_reply (hash16 : string -> string)
    (isoformat : Z -> string) (user_id session_id user_message assistant_response : string)
    (topic : option string) (w : world) :
  let w' := snd (save_interaction_memory hash16 isoformat true user_id session_id user_message
                   assistant_response topic None (Some []) w) in
  fst (save_interaction_memory hash16 isoformat true user_id session_id user_message
         assistant_response topic None (Some []) w) = Ok tt /\
  w_cache w' = w_cache w /\
  (forallb (fun r => negb (String.eqb (r_id r) (wm_id session_id "current_topic"))
                     || mkind_eqb (r_kind r) Working) (w_rows w) = true ->
   filter (fun r => mkind_eqb (r_kind r) Semantic || mkind_eqb (r_kind r) Procedural) (w_rows w')
   = filter (fun r => mkind_eqb (r_kind r) Semantic || mkind_eqb (r_kind r) Procedural)
       (w_rows w)) /\
  (w_down w Working = false -> datetime_ok (w_now w) = true ->
   datetime_ok (w_now w + 120 * 60) = true ->
   forall t, topic = Some t -> t <> "" ->
   fst (get_current_topic session_id (set_cache w' [])) = Ok (JStr t)).
Proof.
  cbv zeta.
  destruct (process_interaction_chat hash16 isoformat user_id session_id user_message
              assistant_response topic (set_cache w [])) as (res & w2 & Hp & HQ & Ht).
  unfold save_interaction_memory, with_fresh_cache, catch. rewrite Hp.
  destruct res as [[]|e]; cbn [fst snd ret];
    (split; [reflexivity|]); (split; [reflexivity|]); (split; [exact HQ | exact Ht]).
Qed.

Lemma save_interaction_memory_after_reply_witness :
  let w := mkWorld [mkRow "f1" "u" Semantic None "likes diagrams" (Serialized []) Medium 0 0 0 1]
             [] (fun _ => false) false [] 10 in
  let w' := snd (save_interaction_memory (fun s => s) (fun _ => "t") true "u" "s1"
                   "What is a half?" "A half is one of two equal parts." (Some "fractions")
                   None (Some []) w) in
  fst (save_interaction_memory (fun s => s) (fun _ => "t") true "u" "s1"
         "What is a half?" "A half is one of two equal parts." (Some "fractions")
         None (Some []) w) = Ok tt /\
  w_cache w' = w_cache w /\
  filter (fun r => mkind_eqb (r_kind r) Semantic || mkind_eqb (r_kind r) Procedural) (w_rows w')
  = filter (fun r => mkind_eqb (r_kind r) Semantic || mkind_eqb (r_kind r) Procedural) (w_rows w) /\
  fst (get_current_topic "s1" (set_cache w' [])) = Ok (JStr "fractions").
Proof.
  cbv zeta.
  destruct (save_interaction_memory_after_reply (fun s => s) (fun _ => "t") "u" "s1"
              "What is a half?" "A half is one of two equal parts." (Some "fractions")
              (mkWorld [mkRow "f1" "u" Semantic None "likes diagrams" (Serialized []) Medium
                          0 0 0 1] [] (fun _ => false) false [] 10)) as (H1 & H2 & H3 & H4).
  split; [exact H1|]. split; [exact H2|]. split; [apply H3; reflexivity|].
  apply H4; [reflexivity | reflexivity | reflexivity | reflexivity | discriminate].
Defined.

(** ** [MemoryManager.consolidate_memories] *)

Lemma summary_line_first (m : msg_row) :
  exists c rest, summary_line m = String c rest /\ (c = "U"%char \/ c = "A"%char).
Proof.
  unfold summary_line. destruct (String.eqb (m_role m) "user");
    eexists _, _; (split; [reflexivity|]); auto.
Qed.

Lemma join_summary_first (m : msg_row) (l : list msg_row) :
  exists c rest, join_lines (map summary_line (m :: l)) = String c rest /\
                 (c = "U"%char \/ c = "A"%char).
Proof.
  destruct (summary_line_first m) as (c & r & E & Hc).
  destruct l as [|m' l]; cbn [map join_lines]; rewrite E; eexists _, _; split;
    [reflexivity | exact Hc | reflexivity | exact Hc].
Qed.

(** A session with messages always gets a summary episode: its summary
    (the last ten messages, each [User: ...] or [Assistant: ...]) is never
    empty nor the sentinel. A session without messages gets none, and when
    the messages table fails the call raises before anything is cleared;
    otherwise the session's working memory is cleared last. *)
Theorem consolidate_memories_effect (hash16 : string -> string) (isoformat : Z -> string)
    (user_id session_id : string) (w : world) :
  let P := fun m => String.eqb (m_session m) session_id in
  (w_msgs_down w = true ->
   consolidate_memories hash16 isoformat user_id session_id w = (Exc StoreError, w)) /\
  (w_msgs_down w = false -> filter P (w_messages w) = [] ->
   consolidate_memories hash16 isoformat user_id session_id w = clear_session session_id w) /\
  (w_msgs_down w = false -> filter P (w_messages w) <> [] ->
   exists summary,
     get_conversation_summary session_id w = (Ok summary, w) /\
     summary <> "" /\ summary <> no_context_sentinel /\
     consolidate_memories hash16 isoformat user_id session_id w
     = clear_session session_id
         (snd (store_episode hash16 isoformat user_id session_id
                 ("Session summary: " ++ substring 0 500 summary)%string
                 [("type", JStr "session_summary")] High w))).
Proof.
  intros P. split; [|split].
  - intros Hm. unfold consolidate_memories, get_conversation_summary, bind, select_messages.
    rewrite Hm. reflexivity.
  - intros Hm Hnil. unfold consolidate_memories, get_conversation_summary, bind, select_messages.
    rewrite Hm. fold P. rewrite Hnil. reflexivity.
  - intros Hm Hne.
    assert (Hdata : firstn 10 (sort_desc (fun m => inject_Z (m_created_at m)) (filter P (w_messages w)))
                    <> []).
    { destruct (sort_desc (fun m => inject_Z (m_created_at m)) (filter P (w_messages w))) eqn:E.
      - exfalso. apply Hne. apply Permutation_nil.
        rewrite <- E. apply sort_desc_perm.
      - discriminate. }
    destruct (firstn 10 (sort_desc (fun m => inject_Z (m_created_at m)) (filter P (w_messages w))))
      as [|m0 l0] eqn:Ed; [contradiction|].
    destruct (rev (m0 :: l0)) as [|m1 l1] eqn:Er.
    { exfalso. apply (f_equal (@length msg_row)) in Er. rewrite length_rev in Er. discriminate. }
    destruct (join_summary_first m1 l1) as (c & rest & Ej & Hc).
    assert (Hg : get_conversation_summary session_id w = (Ok (String c rest), w)).
    { unfold get_conversation_summary, bind, select_messages. rewrite Hm. fold P.
      rewrite Ed. cbv zeta. unfold ret. rewrite Er, Ej. reflexivity. }
    exists (String c rest). split; [exact Hg|]. split; [discriminate|]. split.
    { unfold no_context_sentinel. destruct Hc as [-> | ->]; discriminate. }
    unfold consolidate_memories, bind at 1. rewrite Hg.
    replace (negb (String.eqb (String c rest) "") && negb (String.eqb (String c rest) no_context_sentinel))
      with true by (destruct Hc as [-> | ->]; reflexivity).
    unfold bind.
    match goal with |- context [store_episode ?h ?i ?u ?s ?c' ?x ?m w] =>
      destruct (store_episode_eq h i u s c' x m w) as (w1 & He & _) end.
    rewrite He. reflexivity.
Qed.

(** ** [MemoryManager.get_cross_session_context] *)

Lemma opt_string_eqb_eq (a b : option string) : opt_string_eqb a b = true <-> a = b.
Proof.
  destruct a as [x|], b as [y|]; cbn; split; intro H; try discriminate; try reflexivity.
  - apply String.eqb_eq in H. now subst.
  - injection H as ->. apply String.eqb_refl.
Qed.

Lemma opt_string_eqb_refl (a : option string) : opt_string_eqb a a = true.
Proof. now apply opt_string_eqb_eq. Qed.

Lemma group_add_filter (sid : option string) (e : row) (gs : list (option string * list row))
    (s : option string) :
  filter (fun g => opt_string_eqb (fst g) s) (group_add sid e gs)
  = if opt_string_eqb sid s
    then match filter (fun g => opt_string_eqb (fst g) s) gs with
         | [] => [(sid, [e])]
         | (s', eps) :: rest => (s', eps ++ [e]) :: rest
         end
    else filter (fun g => opt_string_eqb (fst g) s) gs.
Proof.
  induction gs as [|[s' eps] gs IH]; cbn [group_add filter fst].
  - destruct (opt_string_eqb sid s); reflexivity.
  - destruct (opt_string_eqb sid s') eqn:E1.
    + apply opt_string_eqb_eq in E1. subst s'. cbn [filter fst].
      destruct (opt_string_eqb sid s); reflexivity.
    + cbn [filter fst]. rewrite IH.
      destruct (opt_string_eqb s' s) eqn:E2, (opt_string_eqb sid s) eqn:E3; try reflexivity.
      apply opt_string_eqb_eq in E2, E3. subst. rewrite opt_string_eqb_refl in E1. discriminate.
Qed.

(** The invariant of the grouping loop: for every key, the groups with that
    key are one group holding exactly the episodes seen with that session,
    in order, or none when no such episode was seen. *)
Lemma group_fold_inv (episodes processed : list row) (gs : list (option string * list row)) :
  (forall s, filter (fun g => opt_string_eqb (fst g) s) gs
             = if existsb (fun e => opt_string_eqb (r_session e) s) processed
               then [(s, filter (fun e => opt_string_eqb (r_session e) s) processed)] else []) ->
  forall s, filter (fun g => opt_string_eqb (fst g) s) (fold_left (fun sessions ep => group_add (r_session ep) ep sessions)
                                   episodes gs)
            = if existsb (fun e => opt_string_eqb (r_session e) s) (processed ++ episodes)
              then [(s, filter (fun e => opt_string_eqb (r_session e) s) (processed ++ episodes))]
              else [].
Proof.
  revert processed gs. induction episodes as [|e episodes IH]; intros processed gs Hinv.
  - rewrite app_nil_r. exact Hinv.
  - cbn [fold_left]. replace (processed ++ e :: episodes) with ((processed ++ [e]) ++ episodes)
      by (rewrite <- app_assoc; reflexivity).
    apply IH. intros s. rewrite group_add_filter, Hinv, existsb_app, filter_app. cbn [existsb filter].
    destruct (opt_string_eqb (r_session e) s) eqn:E.
    + apply opt_string_eqb_eq in E as Es. rewrite orb_true_r.
      destruct (existsb _ processed) eqn:Ex; [reflexivity|].
      replace (filter (fun e0 => opt_string_eqb (r_session e0) s) processed) with (@nil row).
      * rewrite Es. reflexivity.
      * symmetry. clear Hinv IH.
        induction processed as [|x p IHp]; [reflexivity|]. cbn [existsb filter] in Ex |- *.
        apply orb_false_iff in Ex as [Hx Hp]. rewrite Hx. apply IHp. exact Hp.
    + rewrite orb_false_r, app_nil_r. reflexivity.
Qed.

Lemma group_by_session_filter (episodes : list row) (s : option string) :
  filter (fun g => opt_string_eqb (fst g) s) (group_by_session episodes)
  = if existsb (fun e => opt_string_eqb (r_session e) s) episodes
    then [(s, filter (fun e => opt_string_eqb (r_session e) s) episodes)] else [].
Proof. exact (group_fold_inv episodes [] [] (fun _ => eq_refl) s). Qed.

Lemma nodup_keys (gs : list (option string * list row)) :
  (forall s, (length (filter (fun g => opt_string_eqb (fst g) s) gs) <= 1)%nat) ->
  NoDup (map fst gs).
Proof.
  induction gs as [|g gs IH]; intros H; cbn [map]; constructor.
  - intros Hin. apply in_map_iff in Hin as (g' & Hg' & Hin).
    specialize (H (fst g)). cbn [filter] in H. rewrite opt_string_eqb_refl in H. cbn [length] in H.
    assert (Hf : In g' (filter (fun g0 => opt_string_eqb (fst g0) (fst g)) gs)).
    { apply filter_In. split; [exact Hin|]. rewrite Hg'. apply opt_string_eqb_refl. }
    destruct (filter _ gs); [destruct Hf|]. cbn [length] in H. lia.
  - apply IH. intros s. specialize (H s). cbn [filter] in H.
    destruct (opt_string_eqb (fst g) s); cbn [length] in H; lia.
Qed.

Lemma StronglySorted_filter {A} (R : A -> A -> Prop) (f : A -> bool) (l : list A) :
  StronglySorted R l -> StronglySorted R (filter f l).
Proof.
  induction l as [|x l IH]; intros H; cbn [filter]; [constructor|].
  apply StronglySorted_inv in H as [Hl Hx]. destruct (f x); [|auto].
  constructor; [auto|]. rewrite Forall_forall in Hx |- *. intros y Hy.
  apply filter_In in Hy as [Hy _]. auto.
Qed.

Lemma StronglySorted_firstn {A} (R : A -> A -> Prop) (n : nat) (l : list A) :
  StronglySorted R l -> StronglySorted R (firstn n l).
Proof.
  revert l. induction n as [|n IH]; intros [|x l] H; cbn [firstn]; try constructor.
  - apply StronglySorted_inv in H as [Hl Hx]. auto.
  - apply StronglySorted_inv in H as [Hl Hx]. rewrite Forall_forall in Hx |- *.
    intros y Hy. apply Hx. rewrite <- (firstn_skipn n l). apply in_or_app. now left.
Qed.

(** When episodic memory answers and the cutoff 30 days back is a valid
    [datetime], [get_cross_session_context] partitions the recalled
    episodes (the user's episodes of the last 30 days, most recent first,
    the first [limit] of them; the topic is not used) by session: one
    entry per session, session ids distinct, every recalled episode's
    session present, each entry holding exactly that session's recalled
    episodes in recall order, never empty, and its [recorded_at] being the
    most recent of them. The store changes only in the [access_count] of
    the recalled episodes, each raised by one. *)
Theorem get_cross_session_context_groups (user_id : string) (topic : option string)
    (limit : nat) (w : world) :
  w_down w Episodic = false ->
  datetime_ok (w_now w - 30 * 86400) = true ->
  let episodes :=
    firstn limit (sort_desc (fun r => inject_Z (r_recorded_at r))
                    (filter (fun r => mkind_eqb (r_kind r) Episodic
                                      && (String.eqb (r_user r) user_id
                                          && in_time_range (Some (w_now w - 30 * 86400)%Z) r))
                            (w_rows w))) in
  exists res,
    get_cross_session_context user_id topic limit w
    = (Ok res, set_rows w (map (fun r => add_access (Z.of_nat (count_occ string_dec
                                                   (map r_id episodes) (r_id r))) r)
                             (w_rows w))) /\
    NoDup (map (fun g => fst (fst g)) res) /\
    (forall e, In e episodes -> In (r_session e) (map (fun g => fst (fst g)) res)) /\
    (forall sid eps ra, In (sid, eps, ra) res ->
       eps = filter (fun e => opt_string_eqb (r_session e) sid) episodes /\
       exists e rest, eps = e :: rest /\ ra = Some (r_recorded_at e) /\
         (forall e', In e' eps -> (r_recorded_at e' <= r_recorded_at e)%Z)).
Proof.
  intros Hd Hdt episodes.
  assert (Hc : recall_cutoff (Some 30%Z) (w_now w) = Ok (Some (w_now w - 30 * 86400)%Z)).
  { unfold recall_cutoff, dt_sub. rewrite Hdt. reflexivity. }
  unfold get_cross_session_context, bind. rewrite (recall_episodes_up _ _ _ _ _ _ Hd Hc).
  fold episodes.
  set (f := fun '(sid, eps) =>
              (sid, eps, match eps with e :: _ => Some (r_recorded_at e) | [] => None end)
            : option string * list row * option Z).
  eexists. split; [reflexivity|].
  assert (Hkeys : map (fun g => fst (fst g)) (map f (group_by_session episodes))
                  = map fst (group_by_session episodes)).
  { rewrite map_map. apply map_ext. intros [s e]. reflexivity. }
  rewrite Hkeys. split; [|split].
  - apply nodup_keys. intros s. rewrite group_by_session_filter.
    destruct (existsb _ _); cbn; lia.
  - intros e He. pose proof (group_by_session_filter episodes (r_session e)) as Hg.
    assert (Hx : existsb (fun e0 => opt_string_eqb (r_session e0) (r_session e)) episodes = true).
    { apply existsb_exists. exists e. split; [exact He|]. apply opt_string_eqb_refl. }
    rewrite Hx in Hg.
    assert (Hin : In (r_session e, filter (fun e0 => opt_string_eqb (r_session e0) (r_session e))
                                     episodes) (group_by_session episodes)).
    { eapply proj1. apply (filter_In (fun g => opt_string_eqb (fst g) (r_session e))).
      rewrite Hg. now left. }
    apply in_map_iff. eexists; split; [|exact Hin]. reflexivity.
  - intros sid eps ra Hin. apply in_map_iff in Hin as ([s0 e0] & Hf & Hin).
    cbn in Hf. injection Hf as <- <- Hra.
    assert (Hin' : In (s0, e0) (filter (fun g => opt_string_eqb (fst g) s0)
                                  (group_by_session episodes)))
      by (apply filter_In; split; [exact Hin | apply opt_string_eqb_refl]).
    rewrite group_by_session_filter in Hin'.
    destruct (existsb (fun e => opt_string_eqb (r_session e) s0) episodes) eqn:Ex;
      [|destruct Hin'].
    destruct Hin' as [Heq|[]]. injection Heq as Heq. rewrite <- Heq in *. clear Heq.
    split; [reflexivity|].
    apply existsb_exists in Ex as (x & Hx & Hxs).
    destruct (filter (fun e => opt_string_eqb (r_session e) s0) episodes) as [|e rest] eqn:Ef.
    { exfalso. assert (Hxf : In x (filter (fun e => opt_string_eqb (r_session e) s0) episodes))
        by (apply filter_In; auto). rewrite Ef in Hxf. destruct Hxf. }
    exists e, rest. split; [reflexivity|]. split; [symmetry; exact Hra|].
    assert (Hs : StronglySorted (ranked (fun r => inject_Z (r_recorded_at r)))
                   (filter (fun e => opt_string_eqb (r_session e) s0) episodes)).
    { apply StronglySorted_filter, StronglySorted_firstn, Sorted_StronglySorted;
        [intros a b c Hab Hbc; unfold ranked in *; eapply Qle_trans; eassumption|].
      apply sort_desc_sorted. }
    rewrite Ef in Hs. apply StronglySorted_inv in Hs as [_ Hall].
    intros e' [<-|He']; [lia|].
    rewrite Forall_forall in Hall. specialize (Hall e' He'). unfold ranked in Hall.
    rewrite Zle_Qle. exact Hall.
Qed.

Lemma get_cross_session_context_groups_witness :
  let w := mkWorld [mkRow "e1" "u" Episodic (Some "s1") "fractions" (Serialized []) Medium 100 100 0 1;
                    mkRow "e2" "u" Episodic (Some "s2") "decimals" (Serialized []) Medium 200 200 0 1;
                    mkRow "e3" "u" Episodic (Some "s1") "ratios" (Serialized []) Medium 300 300 0 1]
             [] (fun _ => false) false [] 400 in
  let episodes :=
    firstn 10 (sort_desc (fun r => inject_Z (r_recorded_at r))
                 (filter (fun r => mkind_eqb (r_kind r) Episodic
                                   && (String.eqb (r_user r) "u"
                                       && in_time_range (Some (w_now w - 30 * 86400)%Z) r))
                         (w_rows w))) in
  exists res,
    get_cross_session_context "u" (Some "fractions") 10 w
    = (Ok res, set_rows w (map (fun r => add_access (Z.of_nat (count_occ string_dec
                                                   (map r_id episodes) (r_id r))) r)
                             (w_rows w))) /\
    NoDup (map (fun g => fst (fst g)) res) /\
    (forall e, In e episodes -> In (r_session e) (map (fun g => fst (fst g)) res)) /\
    (forall sid eps ra, In (sid, eps, ra) res ->
       eps = filter (fun e => opt_string_eqb (r_session e) sid) episodes /\
       exists e rest, eps = e :: rest /\ ra = Some (r_recorded_at e) /\
         (forall e', In e' eps -> (r_recorded_at e' <= r_recorded_at e)%Z)).
Proof.
  apply (get_cross_session_context_groups "u" (Some "fractions") 10); reflexivity.
Defined.

(** ** The formatting of [get_memory_context] *)

(** The memory context string is empty exactly when there is nothing to
    report: no learning style, proficiency, interest or challenge in the
    profile (a missing profile has none), a falsy current topic, and no
    strategy and no past interaction. *)
Theorem format_memory_context_empty (py_num_str : Q -> string) (b : bundle) :
  format_memory_context py_num_str b = "" <->
  (forall p, b_user_profile b = Some p ->
             p_learning_style p = [] /\ p_proficiencies p = [] /\
             p_interests p = [] /\ p_challenges p = []) /\
  py_truthy (b_current_topic b) = false /\
  (forall s, b_effective_strategies b = Some s -> s = []) /\
  (forall h, b_relevant_history b = Some h -> h = []).
Proof.
  unfold format_memory_context. cbv zeta.
  destruct b as [q ra sid prof hist strats topic summ]; cbn [b_user_profile b_current_topic
    b_effective_strategies b_relevant_history].
  assert (Hopt : forall {X} (o : option (list X)),
             (forall x, o = Some x -> x = []) <-> match o with Some x => x | None => [] end = []).
  { intros X [x|]; split; intros H; [exact (H x eq_refl) | intros x' [= <-]; exact H
                                    | reflexivity | intros x' Hx'; discriminate]. }
  assert (Hprof : forall (o : option profile),
             (forall p, o = Some p -> p_learning_style p = [] /\ p_proficiencies p = [] /\
                                      p_interests p = [] /\ p_challenges p = []) <->
             (let p := match o with Some p => p | None => empty_profile end in
              p_learning_style p = [] /\ p_proficiencies p = [] /\
              p_interests p = [] /\ p_challenges p = [])).
  { intros [p|]; cbv zeta; split; intros H;
      [exact (H p eq_refl) | intros p' [= <-]; exact H | repeat split | intros p' Hp'; discriminate]. }
  rewrite Hprof, (Hopt _ strats), (Hopt _ hist). cbv zeta.
  destruct (match prof with Some p => p | None => empty_profile end) as [ls pr it ch pf rf].
  cbn [p_learning_style p_proficiencies p_interests p_challenges].
  destruct ls, pr, it, ch, (py_truthy topic),
    (match strats with Some s => s | None => [] end),
    (match hist with Some h => h | None => [] end);
    cbn [app]; split;
    solve [ intros H; discriminate H
          | intros; repeat split; reflexivity
          | intros (H1 & H2 & H3); repeat match goal with H : _ /\ _ |- _ => destruct H end;
            discriminate
          | intros _; reflexivity ].
Qed.
